(** * System resource monitor: the sampling and history engine

    A shallow embedding of [system_monitor/resource_collector.py] (the class
    [ResourceCollector]) and of the collection loop of
    [system_monitor/monitor.py] ([monitor_system]).

    - Python [float] is IEEE binary64: it is modelled by Rocq's primitive
      floats, so every arithmetic step rounds as it does in CPython.
    - Python [int] is unbounded: it is modelled by [Z].
    - The calls into the operating system ([psutil], [GPUtil], [time],
      [datetime]) are the environment: one record [OS] holds what each call
      does when it is made, a value or a raised exception.
    - A method of the collector is a computation over the collector object
      that ends with a value or with a raised exception; an assignment made
      before an exception is raised stays made.
    - The diagnostics written with [print] are not part of the model. *)

From Stdlib Require Import ZArith List String Bool Lia Floats Sorted.
Import ListNotations.
Open Scope Z_scope.

(** ** Python values and exceptions *)

Module Py.

(** The exception classes the code can meet.  [KeyboardInterrupt] and
    [SystemExit] derive from [BaseException] only; all the others are
    subclasses of [Exception]. *)
Inductive exn : Type :=
| KeyboardInterrupt
| SystemExit
| AttributeError
| KeyError
| IndexError
| TypeError
| ZeroDivisionError
| OverflowError
| OSError
| RuntimeError
| ValueError.

(** [isinstance(e, Exception)] *)
Definition is_Exception (e : exn) : bool :=
  match e with
  | KeyboardInterrupt | SystemExit => false
  | _ => true
  end.

(** What evaluating an expression gives: a value, or a raised exception. *)
Inductive result (A : Type) : Type :=
| Return (a : A)
| Raise (e : exn).
Arguments Return {A} a.
Arguments Raise {A} e.

Definition is_Return {A} (r : result A) : bool :=
  match r with Return _ => true | Raise _ => false end.

(** A number a dictionary entry can hold: the healthy paths store floats,
    the defaults store the integer literal [0]. *)
Inductive num : Type :=
| Int (z : Z)
| Float (f : float).

(** [float(z)] for an [int]: the nearest binary64 (ties to even). *)
Definition round_int (z : Z) : float :=
  SF2Prim (binary_normalize prec emax z 0 false).

(** The first magnitude that no longer rounds to a finite binary64. *)
Definition float_limit : Z := 2 ^ 1024 - 2 ^ 970.

(** The conversion CPython applies to the [int] operand of a mixed
    [int]/[float] operation: it raises [OverflowError] when the integer is
    too large for a float. *)
Definition float_of_int (z : Z) : result float :=
  if Z.abs z <? float_limit then Return (round_int z) else Raise OverflowError.

(** [z / f] with [z] an [int] and [f] a [float]. *)
Definition truediv_int_float (z : Z) (f : float) : result float :=
  match float_of_int z with
  | Raise e => Raise e
  | Return x =>
      if (f =? 0)%float then Raise ZeroDivisionError else Return (x / f)%float
  end.

(** [f > 0] with [f] a [float] and the integer literal [0]. *)
Definition gt0 (f : float) : bool := (0 <? f)%float.

(** [l[i]] on a list. *)
Definition list_getitem {A} (l : list A) (i : nat) : result A :=
  match nth_error l i with
  | Some a => Return a
  | None => Raise IndexError
  end.

(** A [dict] with string keys, in insertion order.  [list(d.keys())] is
    the list of first components. *)
Definition dict (V : Type) : Type := list (string * V).

Fixpoint dict_get {V} (d : dict V) (k : string) : option V :=
  match d with
  | [] => None
  | (k', v) :: d' => if String.eqb k k' then Some v else dict_get d' k
  end.

(** [k in d] *)
Definition contains {V} (k : string) (d : dict V) : bool :=
  match dict_get d k with Some _ => true | None => false end.

(** [d[k]] *)
Definition dict_getitem {V} (d : dict V) (k : string) : result V :=
  match dict_get d k with
  | Some v => Return v
  | None => Raise KeyError
  end.

Definition keys {V} (d : dict V) : list string := map fst d.

(** Truth value of a container: non-empty. *)
Definition truthy {A} (l : list A) : bool :=
  match l with [] => false | _ :: _ => true end.

End Py.

Import Py.

(** ** What the libraries return *)

(** [psutil.cpu_freq()] *)
Module scpufreq.
Record t : Type := mk { current : float; min : float; max : float }.
End scpufreq.

(** One reading of [psutil.sensors_temperatures()] *)
Module shwtemp.
Record t : Type :=
  mk { label : string; current : float;
       high : option float; critical : option float }.
End shwtemp.

(** [psutil.virtual_memory()], the fields the collector reads *)
Module svmem.
Record t : Type :=
  mk { total : Z; available : Z; percent : float; used : Z }.
End svmem.

(** [psutil.swap_memory()] *)
Module sswap.
Record t : Type := mk { total : Z; used : Z; percent : float }.
End sswap.

(** [psutil.disk_usage('/')] *)
Module sdiskusage.
Record t : Type := mk { total : Z; used : Z; free : Z; percent : float }.
End sdiskusage.

(** [psutil.disk_io_counters()] *)
Module sdiskio.
Record t : Type := mk { read_bytes : Z; write_bytes : Z }.
End sdiskio.

(** [psutil.net_io_counters()]: cumulative counters *)
Module snetio.
Record t : Type :=
  mk { bytes_sent : Z; bytes_recv : Z; packets_sent : Z; packets_recv : Z }.
End snetio.

(** A device of [GPUtil.getGPUs()]; the driver reports [load] as a fraction
    between 0 and 1. *)
Module GPU.
Record t : Type :=
  mk { id : Z; name : string; load : float;
       memoryUsed : float; memoryTotal : float; temperature : float }.
End GPU.

(** ** The environment of one sampling tick

    Each field is what the call of that name does during the tick.  A user
    interrupt is delivered while such a call (or a sleep of the loop) is in
    progress: the call then raises [KeyboardInterrupt].
    [GPU_AVAILABLE] is the module constant set when [GPUtil] is imported. *)
Record OS : Type := {
  datetime_now : Z;   (* datetime.now(), in microseconds *)
  cpu_percent : result float;
  cpu_count : result (option Z);
  cpu_freq : result (option scpufreq.t);
  sensors_temperatures : result (dict (list shwtemp.t));
  virtual_memory : result svmem.t;
  swap_memory : result sswap.t;
  disk_usage : result sdiskusage.t;
  disk_io_counters : result (option sdiskio.t);
  time_time : result float;
  net_io_counters : result (option snetio.t);
  GPU_AVAILABLE : bool;
  getGPUs : result (list GPU.t)
}.

(** ** The dictionaries the collector builds *)

Module cpu_info.
Record t : Type :=
  mk { percent : num; count : option Z;
       freq_current : option float; freq_max : option float;
       temperature : option float }.
End cpu_info.

Module memory_info.
Record t : Type :=
  mk { total : Z; available : Z; used : Z; percent : num;
       swap_total : Z; swap_used : Z; swap_percent : num }.
End memory_info.

Module disk_info.
Record t : Type :=
  mk { total : Z; used : Z; free : Z; percent : num;
       read_bytes : Z; write_bytes : Z }.
End disk_info.

Module network_info.
Record t : Type :=
  mk { bytes_sent : Z; bytes_recv : Z; packets_sent : Z; packets_recv : Z;
       upload_speed_mbps : num; download_speed_mbps : num }.
End network_info.

Module gpu_entry.
Record t : Type :=
  mk { id : Z; name : string; load : float;
       memory_used : float; memory_total : float;
       memory_percent : num; temperature : float }.
End gpu_entry.

Module gpu_info.
Record t : Type := mk { gpus : list gpu_entry.t }.
End gpu_info.

(** One entry of the history: the dictionary [collect_all] builds. *)
Record Snapshot : Type := {
  timestamp : Z;
  cpu : cpu_info.t;
  memory : memory_info.t;
  disk : disk_info.t;
  network : network_info.t;
  gpu : option gpu_info.t
}.

(** ** The collector object *)

Record ResourceCollector : Type := {
  data_history : list Snapshot;
  network_last : option snetio.t;
  last_time : float
}.

(** ** Computations over the collector *)

Definition M (A : Type) : Type := ResourceCollector -> ResourceCollector * result A.

Definition ret {A} (a : A) : M A := fun self => (self, Return a).

Definition bind {A B} (m : M A) (k : A -> M B) : M B :=
  fun self =>
    match m self with
    | (self', Return a) => k a self'
    | (self', Raise e) => (self', Raise e)
    end.

Notation "x <- m ;; k" := (bind m (fun x => k))
  (at level 61, m at next level, right associativity).
Notation "m ;;; k" := (bind m (fun _ => k))
  (at level 61, right associativity).

(** The outcome of an expression that does not touch the collector. *)
Definition eval {A} (r : result A) : M A := fun self => (self, r).

(** Reading and writing the attributes of [self]. *)
Definition get_self : M ResourceCollector := fun self => (self, Return self).
Definition set_self (f : ResourceCollector -> ResourceCollector) : M unit :=
  fun self => (f self, Return tt).

(** [o.attr] on an object that may be [None]. *)
Definition getattr {O A} (o : option O) (attr : O -> A) : M A :=
  match o with
  | Some x => ret (attr x)
  | None => eval (Raise AttributeError)
  end.

(** [try: body except <classes>: handler] *)
Definition try_except {A} (body : M A) (catches : exn -> bool) (handler : M A) : M A :=
  fun self =>
    match body self with
    | (self', Raise e) => if catches e then handler self' else (self', Raise e)
    | r => r
    end.

Definition value {A} (m : M A) (self : ResourceCollector) : result A := snd (m self).
Definition after {A} (m : M A) (self : ResourceCollector) : ResourceCollector := fst (m self).

(** ** [ResourceCollector]: the metric source adapters *)

(** [__init__]: the two calls are made outside any [try]. *)
Definition init (w : OS) : result ResourceCollector :=
  match net_io_counters w with
  | Raise e => Raise e
  | Return counters =>
      match time_time w with
      | Raise e => Raise e
      | Return t =>
          Return {| data_history := []; network_last := counters; last_time := t |}
      end
  end.

(** The classes of the inner [except (AttributeError, KeyError, IndexError)]. *)
Definition sensor_guard (e : exn) : bool :=
  match e with
  | AttributeError | KeyError | IndexError => true
  | _ => false
  end.

(** The [if]/[elif] chain that picks the temperature out of the sensor map;
    [cpu_temp] keeps its initial [None] when no branch is taken. *)
Definition select_cpu_temp (temps : dict (list shwtemp.t)) : M (option float) :=
  if contains "coretemp" temps then
    group <- eval (dict_getitem temps "coretemp");;
    reading <- eval (list_getitem group 0);;
    ret (Some (shwtemp.current reading))
  else if contains "cpu_thermal" temps then
    group <- eval (dict_getitem temps "cpu_thermal");;
    reading <- eval (list_getitem group 0);;
    ret (Some (shwtemp.current reading))
  else if truthy temps then
    first_sensor <- eval (list_getitem (keys temps) 0);;
    group <- eval (dict_getitem temps first_sensor);;
    reading <- eval (list_getitem group 0);;
    ret (Some (shwtemp.current reading))
  else ret None.

(** The inner [try] of [collect_cpu_info]. *)
Definition read_cpu_temp (w : OS) : M (option float) :=
  try_except
    (temps <- eval (sensors_temperatures w);;
     select_cpu_temp temps)
    sensor_guard
    (ret None).

Definition cpu_default : cpu_info.t :=
  cpu_info.mk (Int 0) (Some 0) None None None.

(** The body of the outer [try] of [collect_cpu_info]. *)
Definition collect_cpu_info_body (w : OS) : M cpu_info.t :=
  cpu_percent_ <- eval (cpu_percent w);;
  cpu_count_ <- eval (cpu_count w);;
  cpu_freq_ <- eval (cpu_freq w);;
  cpu_temp <- read_cpu_temp w;;
  ret (cpu_info.mk (Float cpu_percent_) cpu_count_
         (option_map scpufreq.current cpu_freq_)
         (option_map scpufreq.max cpu_freq_)
         cpu_temp).

Definition collect_cpu_info (w : OS) : M cpu_info.t :=
  try_except (collect_cpu_info_body w) is_Exception (ret cpu_default).

Definition memory_default : memory_info.t :=
  memory_info.mk 0 0 0 (Int 0) 0 0 (Int 0).

Definition collect_memory_info_body (w : OS) : M memory_info.t :=
  mem <- eval (virtual_memory w);;
  swap <- eval (swap_memory w);;
  ret (memory_info.mk (svmem.total mem) (svmem.available mem) (svmem.used mem)
         (Float (svmem.percent mem))
         (sswap.total swap) (sswap.used swap) (Float (sswap.percent swap))).

Definition collect_memory_info (w : OS) : M memory_info.t :=
  try_except (collect_memory_info_body w) is_Exception (ret memory_default).

Definition disk_default : disk_info.t :=
  disk_info.mk 0 0 0 (Int 0) 0 0.

Definition collect_disk_info_body (w : OS) : M disk_info.t :=
  disk_ <- eval (disk_usage w);;
  disk_io <- eval (disk_io_counters w);;
  ret (disk_info.mk (sdiskusage.total disk_) (sdiskusage.used disk_)
         (sdiskusage.free disk_) (Float (sdiskusage.percent disk_))
         (match disk_io with Some io => sdiskio.read_bytes io | None => 0 end)
         (match disk_io with Some io => sdiskio.write_bytes io | None => 0 end)).

Definition collect_disk_info (w : OS) : M disk_info.t :=
  try_except (collect_disk_info_body w) is_Exception (ret disk_default).

Definition network_default : network_info.t :=
  network_info.mk 0 0 0 0 (Int 0) (Int 0).

(** [(diff / time_delta) * 8 / 1_000_000 if time_delta > 0 else 0] *)
Definition speed_mbps (diff : Z) (time_delta : float) : M num :=
  if gt0 time_delta then
    q <- eval (truediv_int_float diff time_delta);;
    ret (Float (q * 8 / 1000000)%float)
  else ret (Int 0).

Definition collect_network_info_body (w : OS) : M network_info.t :=
  current_time <- eval (time_time w);;
  network_current <- eval (net_io_counters w);;
  self <- get_self;;
  let time_delta := (current_time - last_time self)%float in
  sent_now <- getattr network_current snetio.bytes_sent;;
  sent_last <- getattr (network_last self) snetio.bytes_sent;;
  let bytes_sent_diff := sent_now - sent_last in
  recv_now <- getattr network_current snetio.bytes_recv;;
  recv_last <- getattr (network_last self) snetio.bytes_recv;;
  let bytes_recv_diff := recv_now - recv_last in
  upload_speed <- speed_mbps bytes_sent_diff time_delta;;
  download_speed <- speed_mbps bytes_recv_diff time_delta;;
  set_self (fun s => {| data_history := data_history s;
                        network_last := network_current;
                        last_time := last_time s |});;;
  set_self (fun s => {| data_history := data_history s;
                        network_last := network_last s;
                        last_time := current_time |});;;
  bytes_sent_ <- getattr network_current snetio.bytes_sent;;
  bytes_recv_ <- getattr network_current snetio.bytes_recv;;
  packets_sent_ <- getattr network_current snetio.packets_sent;;
  packets_recv_ <- getattr network_current snetio.packets_recv;;
  ret (network_info.mk bytes_sent_ bytes_recv_ packets_sent_ packets_recv_
         upload_speed download_speed).

Definition collect_network_info (w : OS) : M network_info.t :=
  try_except (collect_network_info_body w) is_Exception (ret network_default).

(** The dictionary appended for one device. *)
Definition gpu_record (g : GPU.t) : gpu_entry.t :=
  gpu_entry.mk (GPU.id g) (GPU.name g)
    (GPU.load g * 100)%float
    (GPU.memoryUsed g) (GPU.memoryTotal g)
    (if gt0 (GPU.memoryTotal g)
     then Float (GPU.memoryUsed g / GPU.memoryTotal g * 100)%float
     else Int 0)
    (GPU.temperature g).

(** [for gpu in gpus: gpu_data.append({...})] *)
Fixpoint append_gpu_records (gpus : list GPU.t) (gpu_data : list gpu_entry.t)
  : list gpu_entry.t :=
  match gpus with
  | [] => gpu_data
  | g :: rest => append_gpu_records rest (gpu_data ++ [gpu_record g])
  end.

Definition collect_gpu_info (w : OS) : M (option gpu_info.t) :=
  if negb (GPU_AVAILABLE w) then ret None
  else
    try_except
      (gpus <- eval (getGPUs w);;
       if negb (truthy gpus) then ret None
       else ret (Some (gpu_info.mk (append_gpu_records gpus []))))
      is_Exception
      (ret None).

(** ** [ResourceCollector]: the sampler and the history store *)

Definition collect_all (w : OS) : M Snapshot :=
  let timestamp_ := datetime_now w in
  cpu_ <- collect_cpu_info w;;
  memory_ <- collect_memory_info w;;
  disk_ <- collect_disk_info w;;
  network_ <- collect_network_info w;;
  gpu_ <- collect_gpu_info w;;
  let data := {| timestamp := timestamp_; cpu := cpu_; memory := memory_;
                 disk := disk_; network := network_; gpu := gpu_ |} in
  set_self (fun s => {| data_history := data_history s ++ [data];
                        network_last := network_last s;
                        last_time := last_time s |});;;
  ret data.

Definition get_history : M (list Snapshot) :=
  self <- get_self;; ret (data_history self).

Definition clear_history : M unit :=
  set_self (fun s => {| data_history := [];
                        network_last := network_last s;
                        last_time := last_time s |}).

(** ** [print_progress_bar]

    A Python [str] is the list of its code points; [s * n] repeats [s], and
    gives the empty string for a negative [n]. *)
Definition str : Type := list N.

Definition str_repeat (s : str) (n : Z) : str :=
  List.concat (repeat s (Z.to_nat n)).

(** The code point of ['-']. *)
Definition dash : N := 45%N.

(** The code point of the default [fill], a full block. *)
Definition block : N := 9608%N.

(** The function computes the percentage first,
    [100 * (iteration / float(total))], which can raise, then the bar; the
    value here is the bar it writes to the console. *)
Definition print_progress_bar (iteration total length : Z) (fill : str)
  : result str :=
  match float_of_int total with
  | Raise e => Raise e
  | Return total_ =>
      match truediv_int_float iteration total_ with
      | Raise e => Raise e
      | Return _ =>
          let filled_length := (length * iteration) / total in
          Return (str_repeat fill filled_length ++
                  str_repeat [dash] (length - filled_length))
      end
  end.

(** [f"{x:.1f}"]: an [int] is converted to a float first, which can
    raise; the text itself goes to the console. *)
Definition format_f (x : num) : result unit :=
  match x with
  | Float _ => Return tt
  | Int z =>
      match float_of_int z with
      | Raise e => Raise e
      | Return _ => Return tt
      end
  end.

(** ** [monitor_system]: the collection loop

    The environment of iteration [i] is the operating system as the tick
    finds it and what [time.sleep(interval_seconds)] does after the tick:
    it returns, or it is interrupted.  What [print_progress_bar] writes goes
    to the console; what is kept of the call is whether it raises. *)
Record TickEnv : Type := {
  os : OS;
  sleep : result unit
}.

(** How the [for] loop is left. *)
Inductive loop_exit : Type :=
| LoopDone                 (* range exhausted *)
| LoopBreak                (* [break] in a handler *)
| LoopReturn               (* [return] in a handler *)
| LoopRaise (e : exn).     (* not caught by either handler *)

(** The two [except] clauses of the loop body; both test [i > 0]. *)
Definition loop_handler (e : exn) (i : Z) : loop_exit :=
  match e with
  | KeyboardInterrupt => if 0 <? i then LoopBreak else LoopReturn
  | _ =>
      if is_Exception e
      then (if 0 <? i then LoopBreak else LoopReturn)
      else LoopRaise e
  end.

(** The [try] block of one iteration: the tick, the progress bar with the
    two percentages formatted into its suffix, and the wait. *)
Definition loop_body (env : nat -> TickEnv) (total_iterations : Z) (i : nat) : M unit :=
  data <- collect_all (os (env i));;
  eval (format_f (cpu_info.percent (cpu data)));;;
  eval (format_f (memory_info.percent (memory data)));;;
  eval (print_progress_bar (Z.of_nat i + 1) total_iterations 40 [block]);;;
  if Z.of_nat i <? total_iterations - 1
  then eval (sleep (env i))
  else ret tt.

(** [for i in range(total_iterations)], with [remaining] iterations to go. *)
Fixpoint collection_loop (env : nat -> TickEnv) (total_iterations : Z)
    (remaining : nat) (i : nat) (collector : ResourceCollector)
  : ResourceCollector * loop_exit :=
  match remaining with
  | O => (collector, LoopDone)
  | S remaining' =>
      match loop_body env total_iterations i collector with
      | (collector', Return _) =>
          collection_loop env total_iterations remaining' (S i) collector'
      | (collector', Raise e) => (collector', loop_handler e (Z.of_nat i))
      end
  end.

(** How a run of [monitor_system] ends.  [Finalized h] is the path that
    hands [h] to [generate_all_graphs] and [generate_report]. *)
Inductive run_end : Type :=
| Aborted (collector : ResourceCollector)   (* [return] from inside the loop *)
| EmptyHistory                              (* [if not data_history: return] *)
| Finalized (history : list Snapshot)
| Uncaught (e : exn).

Definition monitor_system (duration_minutes interval_seconds : Z)
    (startup : OS) (env : nat -> TickEnv) : run_end :=
  match init startup with
  | Raise e => Uncaught e
  | Return collector =>
      if interval_seconds =? 0 then Uncaught ZeroDivisionError
      else
        let total_iterations := (duration_minutes * 60) / interval_seconds in
        match collection_loop env total_iterations
                (Z.to_nat total_iterations) 0 collector with
        | (collector', LoopReturn) => Aborted collector'
        | (_, LoopRaise e) => Uncaught e
        | (collector', _) =>
            match value get_history collector' with
            | Return [] => EmptyHistory
            | Return history => Finalized history
            | Raise e => Uncaught e
            end
        end
  end.

(** ** Sample environments *)

Definition healthy_os : OS := {|
  datetime_now := 1000000;
  cpu_percent := Return 12.5%float;
  cpu_count := Return (Some 4);
  cpu_freq := Return (Some (scpufreq.mk 2400 800 3600));
  sensors_temperatures :=
    Return [("coretemp"%string, [shwtemp.mk "Package id 0" 71 (Some 100%float) (Some 100%float)]);
            ("other"%string, [shwtemp.mk EmptyString 55 None None])];
  virtual_memory := Return (svmem.mk 16000000000 8000000000 50 8000000000);
  swap_memory := Return (sswap.mk 2000000000 0 0);
  disk_usage := Return (sdiskusage.mk 500000000000 200000000000 300000000000 40);
  disk_io_counters := Return (Some (sdiskio.mk 1000 2000));
  time_time := Return 101%float;
  net_io_counters := Return (Some (snetio.mk 1125000 2250000 110 220));
  GPU_AVAILABLE := true;
  getGPUs := Return [GPU.mk 0 "gpu0" 0.5 2000 8000 60; GPU.mk 1 "gpu1" 0.25 2000 0 40]
|}.

(** Every call into the operating system raises [OSError]. *)
Definition failing_os : OS := {|
  datetime_now := 6000000;
  cpu_percent := Raise OSError;
  cpu_count := Raise OSError;
  cpu_freq := Raise OSError;
  sensors_temperatures := Raise OSError;
  virtual_memory := Raise OSError;
  swap_memory := Raise OSError;
  disk_usage := Raise OSError;
  disk_io_counters := Raise OSError;
  time_time := Raise OSError;
  net_io_counters := Raise OSError;
  GPU_AVAILABLE := true;
  getGPUs := Raise OSError
|}.

(** A collector whose last network sample was taken one second before
    [healthy_os]. *)
Definition sample_collector : ResourceCollector := {|
  data_history := [];
  network_last := Some (snetio.mk 1000000 2000000 100 200);
  last_time := 100
|}.

(** ** Vocabulary of the properties *)

(** A computation that neither reads nor writes the collector. *)
Definition stateless {A} (m : M A) : Prop :=
  exists r, forall self, m self = (self, r).

(** A call that raised. *)
Definition raised {A} (r : result A) : bool := negb (is_Return r).

(** A call that returned, or raised an instance of [Exception]. *)
Definition no_BaseException {A} (r : result A) : bool :=
  match r with
  | Return _ => true
  | Raise e => is_Exception e
  end.

(** No call into the operating system is cut short by an interrupt or by
    an exit request during the tick. *)
Definition os_raises_Exception_only (w : OS) : bool :=
  no_BaseException (cpu_percent w) && no_BaseException (cpu_count w) &&
  no_BaseException (cpu_freq w) && no_BaseException (sensors_temperatures w) &&
  no_BaseException (virtual_memory w) && no_BaseException (swap_memory w) &&
  no_BaseException (disk_usage w) && no_BaseException (disk_io_counters w) &&
  no_BaseException (time_time w) && no_BaseException (net_io_counters w) &&
  no_BaseException (getGPUs w).

(** Internal failure of an adapter: one of its calls into the operating
    system raises and the exception reaches the [except Exception] at the
    adapter's boundary.  In the CPU adapter the inner guard of the
    temperature block keeps [AttributeError], [KeyError] and [IndexError]
    of the sensor query away from the boundary (sensor unavailable). *)
Definition cpu_call_fails (w : OS) : bool :=
  raised (cpu_percent w) || raised (cpu_count w) || raised (cpu_freq w) ||
  match sensors_temperatures w with
  | Raise e => negb (sensor_guard e)
  | Return _ => false
  end.

Definition memory_call_fails (w : OS) : bool :=
  raised (virtual_memory w) || raised (swap_memory w).

Definition disk_call_fails (w : OS) : bool :=
  raised (disk_usage w) || raised (disk_io_counters w).

Definition network_call_fails (w : OS) : bool :=
  raised (time_time w) || raised (net_io_counters w).

Definition gpu_call_fails (w : OS) : bool :=
  raised (getGPUs w).

(** The snapshot of a tick on which every adapter fell back to its
    default. *)
Definition degraded_snapshot (now : Z) : Snapshot := {|
  timestamp := now;
  cpu := cpu_default;
  memory := memory_default;
  disk := disk_default;
  network := network_default;
  gpu := None
|}.

(** [self.data_history.append(data)] *)
Definition history_append (self : ResourceCollector) (data : Snapshot)
  : ResourceCollector :=
  {| data_history := data_history self ++ [data];
     network_last := network_last self;
     last_time := last_time self |}.

(** [n] reads of the history in a row, with nothing in between. *)
Fixpoint read_many (n : nat) : M (list (list Snapshot)) :=
  match n with
  | O => ret []
  | S n' =>
      history <- get_history;;
      rest <- read_many n';;
      ret (history :: rest)
  end.

(** The first reading of a sensor group, absent for a group without
    readings. *)
Definition first_reading (group : list shwtemp.t) : option float :=
  option_map shwtemp.current (hd_error group).

(** The temperature selection rule as the specification words it:
    "coretemp" first, else "cpu_thermal", else the first group of the map,
    else absent. *)
Definition cpu_temperature_rule (temps : dict (list shwtemp.t)) : option float :=
  match dict_get temps "coretemp" with
  | Some group => first_reading group
  | None =>
      match dict_get temps "cpu_thermal" with
      | Some group => first_reading group
      | None =>
          match temps with
          | (_, group) :: _ => first_reading group
          | [] => None
          end
      end
  end.

(** The throughput formula as the specification words it:
    [dbytes / dt * 8 / 1,000,000], in binary64. *)
Definition rate_mbps (dbytes : Z) (dt : float) : float :=
  (round_int dbytes / dt * 8 / 1000000)%float.

(** ** More sample environments *)

(** [healthy_os] on a host without the GPU library. *)
Definition no_gpu_library : OS := {|
  datetime_now := datetime_now healthy_os;
  cpu_percent := cpu_percent healthy_os;
  cpu_count := cpu_count healthy_os;
  cpu_freq := cpu_freq healthy_os;
  sensors_temperatures := sensors_temperatures healthy_os;
  virtual_memory := virtual_memory healthy_os;
  swap_memory := swap_memory healthy_os;
  disk_usage := disk_usage healthy_os;
  disk_io_counters := disk_io_counters healthy_os;
  time_time := time_time healthy_os;
  net_io_counters := net_io_counters healthy_os;
  GPU_AVAILABLE := false;
  getGPUs := Raise RuntimeError
|}.

(** [healthy_os] on a host whose GPU library finds no device. *)
Definition no_gpu_device : OS := {|
  datetime_now := datetime_now healthy_os;
  cpu_percent := cpu_percent healthy_os;
  cpu_count := cpu_count healthy_os;
  cpu_freq := cpu_freq healthy_os;
  sensors_temperatures := sensors_temperatures healthy_os;
  virtual_memory := virtual_memory healthy_os;
  swap_memory := swap_memory healthy_os;
  disk_usage := disk_usage healthy_os;
  disk_io_counters := disk_io_counters healthy_os;
  time_time := time_time healthy_os;
  net_io_counters := net_io_counters healthy_os;
  GPU_AVAILABLE := true;
  getGPUs := Return []
|}.

(** [healthy_os] with another sensor map. *)
Definition with_sensors (temps : result (dict (list shwtemp.t))) : OS := {|
  datetime_now := datetime_now healthy_os;
  cpu_percent := cpu_percent healthy_os;
  cpu_count := cpu_count healthy_os;
  cpu_freq := cpu_freq healthy_os;
  sensors_temperatures := temps;
  virtual_memory := virtual_memory healthy_os;
  swap_memory := swap_memory healthy_os;
  disk_usage := disk_usage healthy_os;
  disk_io_counters := disk_io_counters healthy_os;
  time_time := time_time healthy_os;
  net_io_counters := net_io_counters healthy_os;
  GPU_AVAILABLE := GPU_AVAILABLE healthy_os;
  getGPUs := getGPUs healthy_os
|}.

Definition reading (celsius : float) : shwtemp.t :=
  shwtemp.mk EmptyString celsius None None.

(** The collector once the network adapter has stored the counters [cur]
    read at time [now]. *)
Definition rate_state_set (self : ResourceCollector)
    (cur : option snetio.t) (now : float) : ResourceCollector :=
  {| data_history := data_history self; network_last := cur; last_time := now |}.

(** [healthy_os] read at the very instant of the previous sample. *)
Definition same_instant_os : OS := {|
  datetime_now := datetime_now healthy_os;
  cpu_percent := cpu_percent healthy_os;
  cpu_count := cpu_count healthy_os;
  cpu_freq := cpu_freq healthy_os;
  sensors_temperatures := sensors_temperatures healthy_os;
  virtual_memory := virtual_memory healthy_os;
  swap_memory := swap_memory healthy_os;
  disk_usage := disk_usage healthy_os;
  disk_io_counters := disk_io_counters healthy_os;
  time_time := Return 100%float;
  net_io_counters := net_io_counters healthy_os;
  GPU_AVAILABLE := GPU_AVAILABLE healthy_os;
  getGPUs := getGPUs healthy_os
|}.

(** ** A run of the sampler

    One invocation of [collect_all] per environment, in order, whatever the
    caller does in between; the log keeps what each invocation returned or
    raised. *)
Fixpoint sample (ws : list OS) (self : ResourceCollector)
  : ResourceCollector * list (result Snapshot) :=
  match ws with
  | [] => (self, [])
  | w :: rest =>
      let (self', r) := collect_all w self in
      let (self'', log) := sample rest self' in
      (self'', r :: log)
  end.

(** The snapshots of the successful invocations of a log, in order. *)
Fixpoint successes (log : list (result Snapshot)) : list Snapshot :=
  match log with
  | [] => []
  | Return data :: rest => data :: successes rest
  | Raise _ :: rest => successes rest
  end.

(** The wall-clock readings of the invocations that returned, in order:
    [ws] are the environments of a run and [log] what its invocations
    did. *)
Fixpoint readings (ws : list OS) (log : list (result Snapshot)) : list Z :=
  match ws, log with
  | w :: ws', Return _ :: log' => datetime_now w :: readings ws' log'
  | _ :: ws', Raise _ :: log' => readings ws' log'
  | _, _ => []
  end.

(** The wall clock reads later at every invocation than at the ones before
    it.  Nothing in the sampler makes it so: [datetime.now()] is the naive
    local time of the host. *)
Definition clock_increasing (ws : list OS) : Prop :=
  StronglySorted (fun w w' => datetime_now w < datetime_now w') ws.

(** The environments of the iterations [i], [i+1], ..., [i+n-1]. *)
Definition ticks (env : nat -> TickEnv) (i n : nat) : list OS :=
  map (fun j => os (env j)) (seq i n).

(** ** Sample runs *)

(** Every tick finds [healthy_os]; the user interrupts the wait that
    follows tick number [k] (counted from 0). *)
Definition interrupted_after (k : nat) (i : nat) : TickEnv :=
  {| os := healthy_os;
     sleep := if Nat.eqb i k then Raise KeyboardInterrupt else Return tt |}.

(** ** [main]: the command line

    [argparse] delivers the two integers; the three checks end the process
    with status 1, and so does an [Exception] that leaves
    [monitor_system]. *)
Inductive main_end : Type :=
| SysExit (status : Z)          (* [sys.exit(status)] *)
| Ran (r : run_end)             (* [monitor_system] returned *)
| Escapes (e : exn).            (* not an [Exception]: leaves [main] *)

Definition main (duration interval : Z) (startup : OS) (env : nat -> TickEnv)
  : main_end :=
  if duration <=? 0 then SysExit 1
  else if interval <=? 0 then SysExit 1
  else if interval >? duration * 60 then SysExit 1
  else
    match monitor_system duration interval startup env with
    | Uncaught e => if is_Exception e then SysExit 1 else Escapes e
    | r => Ran r
    end.

(** ** [GraphGenerator]: the series handed to the plots

    What [matplotlib] draws is outside the model; a figure is described by
    the sequences the code passes to [plot], or by the placeholder text it
    writes instead.  What is kept of a [plot] call is that it raises
    [ValueError] when its two sequences differ in length. *)
Module GraphGenerator.

(** [ax.plot(x, y, ...)] *)
Definition plot {A} (x : list Z) (y : list A) : result unit :=
  if Nat.eqb (List.length x) (List.length y)
  then Return tt
  else Raise ValueError.

Definition _extract_timestamps (data_history : list Snapshot) : list Z :=
  map timestamp data_history.

(** The lower panel of the CPU figure. *)
Inductive temperature_panel : Type :=
| TemperaturePlot (x : list Z) (y : list float)
| TemperatureNotAvailable.

Record cpu_figure : Type := {
  usage_x : list Z;
  usage_y : list num;
  temperature_panel_ : temperature_panel
}.

(** [[entry['cpu']['temperature'] for entry in data_history
      if entry['cpu']['temperature'] is not None]] *)
Fixpoint present_temperatures (data_history : list Snapshot) : list float :=
  match data_history with
  | [] => []
  | entry :: rest =>
      match cpu_info.temperature (cpu entry) with
      | Some t => t :: present_temperatures rest
      | None => present_temperatures rest
      end
  end.

Definition generate_cpu_graph (data_history : list Snapshot) : cpu_figure :=
  let timestamps := _extract_timestamps data_history in
  let cpu_percent_ := map (fun entry => cpu_info.percent (cpu entry)) data_history in
  let cpu_temp := present_temperatures data_history in
  {| usage_x := timestamps;
     usage_y := cpu_percent_;
     temperature_panel_ :=
       if truthy cpu_temp && Nat.eqb (List.length cpu_temp) (List.length timestamps)
       then TemperaturePlot timestamps cpu_temp
       else TemperatureNotAvailable |}.

(** One pair of [plot] calls of the GPU figure. *)
Record gpu_series : Type := {
  series_id : nat;
  series_name : string;
  gpu_load : list float;
  gpu_temp : list float
}.

Inductive gpu_figure : Type :=
| GpuPlaceholder (text : string)
| GpuPlots (timestamps : list Z) (series : list gpu_series).

(** [[entry['gpu']['gpus'][gpu_id][field] for entry in data_history
      if entry['gpu']]] *)
Fixpoint gpu_column {A} (field : gpu_entry.t -> A) (gpu_id : nat)
    (data_history : list Snapshot) : result (list A) :=
  match data_history with
  | [] => Return []
  | entry :: rest =>
      match gpu entry with
      | None => gpu_column field gpu_id rest
      | Some info =>
          match list_getitem (gpu_info.gpus info) gpu_id with
          | Raise e => Raise e
          | Return device =>
              match gpu_column field gpu_id rest with
              | Raise e => Raise e
              | Return column => Return (field device :: column)
              end
          end
      end
  end.

(** [data_history[0]['gpu']['gpus'][gpu_id]['name']] *)
Definition first_gpu_name (data_history : list Snapshot) (gpu_id : nat)
  : result string :=
  match list_getitem data_history 0 with
  | Raise e => Raise e
  | Return first =>
      match gpu first with
      | None => Raise TypeError
      | Some info =>
          match list_getitem (gpu_info.gpus info) gpu_id with
          | Raise e => Raise e
          | Return device => Return (gpu_entry.name device)
          end
      end
  end.

(** The body of [for gpu_id in range(num_gpus)], over the identifiers still
    to come: the two columns and the name are built, then the two curves
    are plotted against [timestamps]. *)
Fixpoint plot_gpus (data_history : list Snapshot) (timestamps : list Z)
    (gpu_ids : list nat) : result (list gpu_series) :=
  match gpu_ids with
  | [] => Return []
  | gpu_id :: rest =>
      match gpu_column gpu_entry.load gpu_id data_history with
      | Raise e => Raise e
      | Return load_ =>
          match gpu_column gpu_entry.temperature gpu_id data_history with
          | Raise e => Raise e
          | Return temp_ =>
              match first_gpu_name data_history gpu_id with
              | Raise e => Raise e
              | Return name_ =>
                  match plot timestamps load_ with
                  | Raise e => Raise e
                  | Return _ =>
                      match plot timestamps temp_ with
                      | Raise e => Raise e
                      | Return _ =>
                          match plot_gpus data_history timestamps rest with
                          | Raise e => Raise e
                          | Return series =>
                              Return ({| series_id := gpu_id;
                                         series_name := name_;
                                         gpu_load := load_;
                                         gpu_temp := temp_ |} :: series)
                          end
                      end
                  end
              end
          end
      end
  end.

Definition has_gpu_data (entry : Snapshot) : bool :=
  match gpu entry with Some _ => true | None => false end.

Definition generate_gpu_graph (data_history : list Snapshot) : result gpu_figure :=
  let has_gpu := existsb has_gpu_data data_history in
  if negb has_gpu then Return (GpuPlaceholder "GPU Not Available or No Data")
  else
    let timestamps := _extract_timestamps data_history in
    match list_getitem data_history 0 with
    | Raise e => Raise e
    | Return first =>
        let num_gpus :=
          match gpu first with
          | Some info => List.length (gpu_info.gpus info)
          | None => 0%nat
          end in
        if Nat.eqb num_gpus 0 then Return (GpuPlaceholder "No GPU Detected")
        else
          match plot_gpus data_history timestamps (seq 0 num_gpus) with
          | Raise e => Raise e
          | Return series => Return (GpuPlots timestamps series)
          end
    end.

End GraphGenerator.

(** ** Vocabulary of the further properties *)

(** The number of snapshots that carry GPU data. *)
Definition gpu_entries (data_history : list Snapshot) : nat :=
  List.length (filter GraphGenerator.has_gpu_data data_history).

(** The number of devices of a snapshot, 0 without GPU data. *)
Definition device_count (entry : Snapshot) : nat :=
  match gpu entry with
  | Some info => List.length (gpu_info.gpus info)
  | None => 0%nat
  end.

(** [healthy_os] with the wall clock at [now]. *)
Definition healthy_at (now : Z) : OS := {|
  datetime_now := now;
  cpu_percent := cpu_percent healthy_os;
  cpu_count := cpu_count healthy_os;
  cpu_freq := cpu_freq healthy_os;
  sensors_temperatures := sensors_temperatures healthy_os;
  virtual_memory := virtual_memory healthy_os;
  swap_memory := swap_memory healthy_os;
  disk_usage := disk_usage healthy_os;
  disk_io_counters := disk_io_counters healthy_os;
  time_time := time_time healthy_os;
  net_io_counters := net_io_counters healthy_os;
  GPU_AVAILABLE := GPU_AVAILABLE healthy_os;
  getGPUs := getGPUs healthy_os
|}.

(** Every tick is healthy, 20 seconds after the one before, and no wait is
    interrupted. *)
Definition always_healthy (i : nat) : TickEnv :=
  {| os := healthy_at (Z.of_nat i * 20000000); sleep := Return tt |}.

(** Every tick is healthy and no wait is interrupted, but the wall clock of
    the host is set back by an hour between the first tick and the second
    (as at the end of daylight-saving time). *)
Definition clock_set_back (i : nat) : TickEnv :=
  {| os := healthy_at (match i with
                       | O => 3600000000
                       | S _ => Z.of_nat i * 20000000
                       end);
     sleep := Return tt |}.

(** As [always_healthy], but the user interrupts the wait that follows tick
    number [k] (counted from 0). *)
Definition wait_interrupted (k : nat) (i : nat) : TickEnv :=
  {| os := healthy_at (Z.of_nat i * 20000000);
     sleep := if Nat.eqb i k then Raise KeyboardInterrupt else Return tt |}.

(** [healthy_os] on a host that reported no network interface. *)
Definition no_nic_os : OS := {|
  datetime_now := datetime_now healthy_os;
  cpu_percent := cpu_percent healthy_os;
  cpu_count := cpu_count healthy_os;
  cpu_freq := cpu_freq healthy_os;
  sensors_temperatures := sensors_temperatures healthy_os;
  virtual_memory := virtual_memory healthy_os;
  swap_memory := swap_memory healthy_os;
  disk_usage := disk_usage healthy_os;
  disk_io_counters := disk_io_counters healthy_os;
  time_time := time_time healthy_os;
  net_io_counters := Return None;
  GPU_AVAILABLE := GPU_AVAILABLE healthy_os;
  getGPUs := getGPUs healthy_os
|}.

(** [healthy_os] with other network counters. *)
Definition with_counters (counters : snetio.t) : OS := {|
  datetime_now := datetime_now healthy_os;
  cpu_percent := cpu_percent healthy_os;
  cpu_count := cpu_count healthy_os;
  cpu_freq := cpu_freq healthy_os;
  sensors_temperatures := sensors_temperatures healthy_os;
  virtual_memory := virtual_memory healthy_os;
  swap_memory := swap_memory healthy_os;
  disk_usage := disk_usage healthy_os;
  disk_io_counters := disk_io_counters healthy_os;
  time_time := time_time healthy_os;
  net_io_counters := Return (Some counters);
  GPU_AVAILABLE := GPU_AVAILABLE healthy_os;
  getGPUs := getGPUs healthy_os
|}.

(** [healthy_os] with the user interrupting the GPU query. *)
Definition gpu_interrupted_os : OS := {|
  datetime_now := datetime_now healthy_os;
  cpu_percent := cpu_percent healthy_os;
  cpu_count := cpu_count healthy_os;
  cpu_freq := cpu_freq healthy_os;
  sensors_temperatures := sensors_temperatures healthy_os;
  virtual_memory := virtual_memory healthy_os;
  swap_memory := swap_memory healthy_os;
  disk_usage := disk_usage healthy_os;
  disk_io_counters := disk_io_counters healthy_os;
  time_time := time_time healthy_os;
  net_io_counters := net_io_counters healthy_os;
  GPU_AVAILABLE := true;
  getGPUs := Raise KeyboardInterrupt
|}.

(** [healthy_os] with the user interrupting the CPU measurement. *)
Definition cpu_interrupted_os : OS := {|
  datetime_now := datetime_now healthy_os;
  cpu_percent := Raise KeyboardInterrupt;
  cpu_count := cpu_count healthy_os;
  cpu_freq := cpu_freq healthy_os;
  sensors_temperatures := sensors_temperatures healthy_os;
  virtual_memory := virtual_memory healthy_os;
  swap_memory := swap_memory healthy_os;
  disk_usage := disk_usage healthy_os;
  disk_io_counters := disk_io_counters healthy_os;
  time_time := time_time healthy_os;
  net_io_counters := net_io_counters healthy_os;
  GPU_AVAILABLE := GPU_AVAILABLE healthy_os;
  getGPUs := getGPUs healthy_os
|}.

(** Every tick finds [healthy_os]; the user interrupts the CPU measurement
    of tick number [k]. *)
Definition interrupted_during (k : nat) (i : nat) : TickEnv :=
  {| os := if Nat.eqb i k then cpu_interrupted_os else healthy_os;
     sleep := Return tt |}.

(** The calls of the CPU, memory and disk adapters return or raise an
    [Exception]. *)
Definition first_adapters_raise_Exception_only (w : OS) : bool :=
  no_BaseException (cpu_percent w) && no_BaseException (cpu_count w) &&
  no_BaseException (cpu_freq w) && no_BaseException (sensors_temperatures w) &&
  no_BaseException (virtual_memory w) && no_BaseException (swap_memory w) &&
  no_BaseException (disk_usage w) && no_BaseException (disk_io_counters w).

(** The progress bar of the first tick can be drawn: the number of
    scheduled ticks converts to a float, and not to zero. *)
Definition bar_can_be_drawn (total_iterations : Z) : bool :=
  is_Return (print_progress_bar 1 total_iterations 40 [block]).

(** Iteration [j] of the loop, one of the scheduled ones, runs to its end:
    the calls of the tick return or raise an [Exception], and the wait that
    follows it, if there is one, is not interrupted. *)
Definition tick_completes (env : nat -> TickEnv) (total_iterations : Z) (j : nat)
  : Prop :=
  Z.of_nat j < total_iterations /\
  os_raises_Exception_only (os (env j)) = true /\
  (Z.of_nat j < total_iterations - 1 -> sleep (env j) = Return tt).

(** Snapshots for the figures: [healthy_os] sampled with and without a
    temperature sensor and a GPU. *)
Definition full_snapshot : Snapshot := {|
  timestamp := 0;
  cpu := cpu_info.mk (Float 12.5) (Some 4) None None (Some 71%float);
  memory := memory_default;
  disk := disk_default;
  network := network_default;
  gpu := Some (gpu_info.mk [gpu_entry.mk 0 "gpu0" 50 2000 8000 (Float 25) 60;
                            gpu_entry.mk 1 "gpu1" 25 2000 0 (Int 0) 40])
|}.

Definition one_gpu_snapshot : Snapshot := {|
  timestamp := 40000000;
  cpu := cpu_info.mk (Float 12.5) (Some 4) None None (Some 70%float);
  memory := memory_default;
  disk := disk_default;
  network := network_default;
  gpu := Some (gpu_info.mk [gpu_entry.mk 0 "gpu0" 50 2000 8000 (Float 25) 60])
|}.

Definition later_full_snapshot : Snapshot := {|
  timestamp := 40000000;
  cpu := cpu full_snapshot;
  memory := memory full_snapshot;
  disk := disk full_snapshot;
  network := network full_snapshot;
  gpu := gpu full_snapshot
|}.

(** * Properties *)

(** ** Floats against the integer literal [0] *)

Lemma zero_spec : Prim2SF 0 = S754_zero false.
Proof. reflexivity. Qed.

Section FloatZero.

Variable x : float.

Lemma le0_not_gt0 : (x <=? 0)%float = true -> gt0 x = false.
Proof.
  unfold gt0. rewrite leb_spec, ltb_spec, zero_spec.
  destruct (Prim2SF x) as [s|s| |s m e]; try destruct s; cbn; congruence.
Qed.

Lemma eq0_not_gt0 : (x =? 0)%float = true -> gt0 x = false.
Proof.
  unfold gt0. rewrite eqb_spec, ltb_spec, zero_spec.
  destruct (Prim2SF x) as [s|s| |s m e]; try destruct s; cbn; congruence.
Qed.

Lemma gt0_nonzero : gt0 x = true -> (x =? 0)%float = false.
Proof.
  intros H. destruct (x =? 0)%float eqn:E; [|reflexivity].
  apply eq0_not_gt0 in E. congruence.
Qed.

End FloatZero.

(** ** Stepping through a computation *)

Lemma bind_Return {A B} (m : M A) (k : A -> M B) self self' a :
  m self = (self', Return a) -> bind m k self = k a self'.
Proof. unfold bind. intros ->. reflexivity. Qed.

Lemma bind_Raise {A B} (m : M A) (k : A -> M B) self self' e :
  m self = (self', Raise e) -> bind m k self = (self', Raise e).
Proof. unfold bind. intros ->. reflexivity. Qed.

Lemma bind_eval {A B} (r : result A) (k : A -> M B) self :
  bind (eval r) k self =
  match r with Return a => k a self | Raise e => (self, Raise e) end.
Proof. unfold bind, eval. destruct r; reflexivity. Qed.

Lemma try_except_Return {A} (body : M A) catches handler self self' a :
  body self = (self', Return a) ->
  try_except body catches handler self = (self', Return a).
Proof. unfold try_except. intros ->. reflexivity. Qed.

Lemma try_except_Raise {A} (body : M A) catches handler self self' e :
  body self = (self', Raise e) ->
  try_except body catches handler self =
  if catches e then handler self' else (self', Raise e).
Proof. unfold try_except. intros ->. reflexivity. Qed.

Lemma stateless_run {A} (m : M A) self : stateless m -> m self = (self, value m self).
Proof. intros [r H]. unfold value. now rewrite H. Qed.

Lemma stateless_value {A} (m : M A) self self' :
  stateless m -> value m self = value m self'.
Proof. intros [r H]. unfold value. now rewrite !H. Qed.

Lemma stateless_ret {A} (a : A) : stateless (ret a).
Proof. now exists (Return a). Qed.

Lemma stateless_eval {A} (r : result A) : stateless (eval r).
Proof. now exists r. Qed.

Lemma stateless_bind {A B} (m : M A) (k : A -> M B) :
  stateless m -> (forall a, stateless (k a)) -> stateless (bind m k).
Proof.
  intros [[a|e] Hm] Hk.
  - destruct (Hk a) as [r Hr]. exists r. intros self.
    unfold bind. now rewrite Hm.
  - exists (Raise e). intros self. unfold bind. now rewrite Hm.
Qed.

Lemma stateless_try_except {A} (body : M A) catches handler :
  stateless body -> stateless handler -> stateless (try_except body catches handler).
Proof.
  intros [[a|e] Hb] [r Hh].
  - exists (Return a). intros self. unfold try_except. now rewrite Hb.
  - exists (if catches e then r else Raise e). intros self.
    unfold try_except. rewrite Hb. destruct (catches e); [apply Hh | reflexivity].
Qed.

Lemma stateless_getattr {O A} (o : option O) (attr : O -> A) : stateless (getattr o attr).
Proof. destruct o; [apply stateless_ret | apply stateless_eval]. Qed.

Create HintDb stateless.
#[local] Hint Resolve stateless_ret stateless_eval stateless_bind
  stateless_try_except stateless_getattr : stateless.

Ltac stateless_tac := repeat (auto with stateless; intros; match goal with
  | |- stateless (if ?b then _ else _) => destruct b
  | |- stateless (match ?o with _ => _ end) => destruct o
  | |- stateless (bind _ _) => apply stateless_bind
  | |- stateless (try_except _ _ _) => apply stateless_try_except
  end).

Lemma stateless_select_cpu_temp temps : stateless (select_cpu_temp temps).
Proof. unfold select_cpu_temp. stateless_tac. Qed.

Lemma stateless_read_cpu_temp w : stateless (read_cpu_temp w).
Proof. unfold read_cpu_temp. stateless_tac. apply stateless_select_cpu_temp. Qed.

Lemma stateless_collect_cpu_info w : stateless (collect_cpu_info w).
Proof.
  unfold collect_cpu_info, collect_cpu_info_body. stateless_tac.
  apply stateless_read_cpu_temp.
Qed.

Lemma stateless_collect_memory_info w : stateless (collect_memory_info w).
Proof. unfold collect_memory_info, collect_memory_info_body. stateless_tac. Qed.

Lemma stateless_collect_disk_info w : stateless (collect_disk_info w).
Proof. unfold collect_disk_info, collect_disk_info_body. stateless_tac. Qed.

Lemma stateless_collect_gpu_info w : stateless (collect_gpu_info w).
Proof. unfold collect_gpu_info. stateless_tac. Qed.

Lemma stateless_speed_mbps diff time_delta : stateless (speed_mbps diff time_delta).
Proof. unfold speed_mbps. stateless_tac. Qed.

(** ** The history store *)

Lemma get_history_run self : get_history self = (self, Return (data_history self)).
Proof. reflexivity. Qed.

(** C10 (read idempotence): any number of reads of the history in a row
    leaves the collector as it was, and every one of them returns the same
    ordered sequence, the stored history. *)
Theorem get_history_idempotent (n : nat) (self : ResourceCollector) :
  read_many n self = (self, Return (repeat (data_history self) n)).
Proof.
  induction n as [|n IH]; cbn [read_many repeat].
  - reflexivity.
  - rewrite (bind_Return _ _ _ _ _ (get_history_run self)).
    rewrite (bind_Return _ _ _ _ _ IH). reflexivity.
Qed.

(** ** The GPU adapter *)

Lemma append_gpu_records_map gpus gpu_data :
  append_gpu_records gpus gpu_data = gpu_data ++ map gpu_record gpus.
Proof.
  revert gpu_data. induction gpus as [|g rest IH]; intros gpu_data; cbn.
  - now rewrite app_nil_r.
  - rewrite IH, <- app_assoc. reflexivity.
Qed.

Lemma collect_gpu_info_devices w self g rest :
  GPU_AVAILABLE w = true -> getGPUs w = Return (g :: rest) ->
  collect_gpu_info w self =
  (self, Return (Some (gpu_info.mk (map gpu_record (g :: rest))))).
Proof.
  intros Ha Hg. unfold collect_gpu_info, try_except. rewrite Ha. cbn [negb].
  rewrite bind_eval, Hg. cbn [truthy negb ret].
  now rewrite append_gpu_records_map.
Qed.

(** C8 (GPU absence): the adapter returns [None] when the GPU library is
    missing and when the library reports no device; when it reports devices
    the result holds exactly one record per device, in the order of the
    devices. *)
Theorem gpu_absent_or_one_record_per_device (w : OS) (self : ResourceCollector) :
  (GPU_AVAILABLE w = false -> collect_gpu_info w self = (self, Return None)) /\
  (GPU_AVAILABLE w = true -> getGPUs w = Return [] ->
   collect_gpu_info w self = (self, Return None)) /\
  (forall gpus, GPU_AVAILABLE w = true -> getGPUs w = Return gpus -> gpus <> [] ->
   exists records,
     collect_gpu_info w self = (self, Return (Some (gpu_info.mk records))) /\
     List.length records = List.length gpus /\
     forall i device, nth_error gpus i = Some device ->
                      nth_error records i = Some (gpu_record device)).
Proof.
  split; [|split].
  - intros Ha. unfold collect_gpu_info. now rewrite Ha.
  - intros Ha Hg. unfold collect_gpu_info, try_except. rewrite Ha. cbn [negb].
    now rewrite bind_eval, Hg.
  - intros [|g rest] Ha Hg Hne; [congruence|].
    exists (map gpu_record (g :: rest)). split; [|split].
    + now apply collect_gpu_info_devices.
    + apply length_map.
    + intros i device Hi. now apply map_nth_error.
Qed.

Lemma gpu_absent_or_one_record_per_device_witness :
  collect_gpu_info no_gpu_library sample_collector = (sample_collector, Return None) /\
  collect_gpu_info no_gpu_device sample_collector = (sample_collector, Return None) /\
  exists records,
    collect_gpu_info healthy_os sample_collector =
    (sample_collector, Return (Some (gpu_info.mk records))) /\
    List.length records = 2%nat.
Proof.
  split; [|split].
  - destruct (gpu_absent_or_one_record_per_device no_gpu_library sample_collector)
      as (H & _). apply H. reflexivity.
  - destruct (gpu_absent_or_one_record_per_device no_gpu_device sample_collector)
      as (_ & H & _). apply H; reflexivity.
  - destruct (gpu_absent_or_one_record_per_device healthy_os sample_collector)
      as (_ & _ & H).
    destruct (H [GPU.mk 0 "gpu0" 0.5 2000 8000 60; GPU.mk 1 "gpu1" 0.25 2000 0 40])
      as (records & Hrun & Hlen & _); [reflexivity | reflexivity | discriminate |].
    exists records. split; [exact Hrun | exact Hlen].
Defined.

(** C6 (GPU derived fields): in the record the adapter builds for a device,
    the load is the fractional load of the driver times 100, and the memory
    percentage is used/total*100 when the total is positive and the integer
    0 otherwise, in particular when the total is 0; no division is made in
    that case. *)
Theorem gpu_derived_fields (w : OS) (self : ResourceCollector)
    (gpus : list GPU.t) (i : nat) (device : GPU.t) :
  GPU_AVAILABLE w = true -> getGPUs w = Return gpus ->
  nth_error gpus i = Some device ->
  exists records entry,
    collect_gpu_info w self = (self, Return (Some (gpu_info.mk records))) /\
    nth_error records i = Some entry /\
    gpu_entry.load entry = (GPU.load device * 100)%float /\
    (gt0 (GPU.memoryTotal device) = true ->
     gpu_entry.memory_percent entry =
     Float (GPU.memoryUsed device / GPU.memoryTotal device * 100)%float) /\
    (gt0 (GPU.memoryTotal device) = false ->
     gpu_entry.memory_percent entry = Int 0) /\
    ((GPU.memoryTotal device =? 0)%float = true ->
     gpu_entry.memory_percent entry = Int 0).
Proof.
  intros Ha Hg Hi.
  destruct gpus as [|g rest]; [destruct i; discriminate|].
  exists (map gpu_record (g :: rest)), (gpu_record device).
  split; [now apply collect_gpu_info_devices|].
  split; [now apply map_nth_error|].
  unfold gpu_record; cbn [gpu_entry.load gpu_entry.memory_percent].
  split; [reflexivity|].
  split; [intros ->; reflexivity|].
  split; [intros ->; reflexivity|].
  intros H0. now rewrite (eq0_not_gt0 _ H0).
Qed.

Lemma gpu_derived_fields_witness :
  exists records first second,
    collect_gpu_info healthy_os sample_collector =
    (sample_collector, Return (Some (gpu_info.mk records))) /\
    nth_error records 0 = Some first /\
    nth_error records 1 = Some second /\
    gpu_entry.load first = 50%float /\
    gpu_entry.memory_percent first = Float 25 /\
    gpu_entry.memory_percent second = Int 0.
Proof.
  destruct (gpu_derived_fields healthy_os sample_collector
              [GPU.mk 0 "gpu0" 0.5 2000 8000 60; GPU.mk 1 "gpu1" 0.25 2000 0 40]
              0 (GPU.mk 0 "gpu0" 0.5 2000 8000 60))
    as (records & first & Hrun & Hfirst & Hload & Hpos & _);
    [reflexivity | reflexivity | reflexivity |].
  destruct (gpu_derived_fields healthy_os sample_collector
              [GPU.mk 0 "gpu0" 0.5 2000 8000 60; GPU.mk 1 "gpu1" 0.25 2000 0 40]
              1 (GPU.mk 1 "gpu1" 0.25 2000 0 40))
    as (records' & second & Hrun' & Hsecond & _ & _ & _ & Hzero);
    [reflexivity | reflexivity | reflexivity |].
  assert (records' = records) by congruence. subst records'.
  exists records, first, second.
  split; [exact Hrun|]. split; [exact Hfirst|]. split; [exact Hsecond|].
  split; [|split].
  - rewrite Hload. reflexivity.
  - rewrite Hpos; reflexivity.
  - apply Hzero. reflexivity.
Defined.

(** ** The CPU adapter *)

Lemma read_cpu_temp_rule w self temps :
  sensors_temperatures w = Return temps ->
  read_cpu_temp w self = (self, Return (cpu_temperature_rule temps)).
Proof.
  intros Ht. unfold read_cpu_temp, try_except.
  rewrite bind_eval, Ht.
  unfold select_cpu_temp, cpu_temperature_rule, contains, dict_getitem.
  destruct (dict_get temps "coretemp") as [group|].
  { rewrite !bind_eval. destruct group; reflexivity. }
  destruct (dict_get temps "cpu_thermal") as [group|].
  { rewrite !bind_eval. destruct group; reflexivity. }
  destruct temps as [|[first_sensor group] rest]; [reflexivity|].
  cbn [truthy keys map fst list_getitem nth_error dict_get].
  rewrite !bind_eval, String.eqb_refl, !bind_eval.
  destruct group; reflexivity.
Qed.

(** C4 (CPU temperature selection): when the operating system returns a
    map of sensor groups, the temperature the CPU adapter reports is the one
    the selection rule names: the first reading of "coretemp", else of
    "cpu_thermal", else of the first group of the map, else absent. *)
Theorem cpu_temperature_selection (w : OS) (self : ResourceCollector)
    (temps : dict (list shwtemp.t))
    (p : float) (c : option Z) (f : option scpufreq.t) :
  cpu_percent w = Return p -> cpu_count w = Return c -> cpu_freq w = Return f ->
  sensors_temperatures w = Return temps ->
  exists info,
    collect_cpu_info w self = (self, Return info) /\
    cpu_info.temperature info = cpu_temperature_rule temps.
Proof.
  intros Hp Hc Hf Ht. eexists. split.
  - unfold collect_cpu_info, collect_cpu_info_body.
    apply try_except_Return.
    rewrite bind_eval, Hp, bind_eval, Hc, bind_eval, Hf.
    rewrite (bind_Return _ _ _ _ _ (read_cpu_temp_rule w self temps Ht)).
    reflexivity.
  - reflexivity.
Qed.

Lemma cpu_temperature_selection_witness :
  (exists info,
     collect_cpu_info
       (with_sensors (Return [("coretemp"%string, [reading 71]);
                              ("other"%string, [reading 55])]))
       sample_collector = (sample_collector, Return info) /\
     cpu_info.temperature info = Some 71%float) /\
  (exists info,
     collect_cpu_info (with_sensors (Return [("other"%string, [reading 55])]))
       sample_collector = (sample_collector, Return info) /\
     cpu_info.temperature info = Some 55%float) /\
  (exists info,
     collect_cpu_info (with_sensors (Return [])) sample_collector =
     (sample_collector, Return info) /\
     cpu_info.temperature info = None).
Proof.
  split; [|split].
  - apply (cpu_temperature_selection
             (with_sensors (Return [("coretemp"%string, [reading 71]);
                                    ("other"%string, [reading 55])]))
             sample_collector
             [("coretemp"%string, [reading 71]); ("other"%string, [reading 55])]
             12.5%float (Some 4) (Some (scpufreq.mk 2400 800 3600)));
      reflexivity.
  - apply (cpu_temperature_selection
             (with_sensors (Return [("other"%string, [reading 55])]))
             sample_collector [("other"%string, [reading 55])]
             12.5%float (Some 4) (Some (scpufreq.mk 2400 800 3600)));
      reflexivity.
  - apply (cpu_temperature_selection (with_sensors (Return [])) sample_collector []
             12.5%float (Some 4) (Some (scpufreq.mk 2400 800 3600)));
      reflexivity.
Defined.

(** ** The network adapter *)

Lemma speed_mbps_positive diff time_delta self :
  gt0 time_delta = true -> Z.abs diff < float_limit ->
  speed_mbps diff time_delta self = (self, Return (Float (rate_mbps diff time_delta))).
Proof.
  intros Hgt Hfit. unfold speed_mbps. rewrite Hgt, bind_eval.
  unfold truediv_int_float, float_of_int.
  apply Z.ltb_lt in Hfit. rewrite Hfit, (gt0_nonzero _ Hgt). reflexivity.
Qed.

Lemma speed_mbps_not_positive diff time_delta self :
  gt0 time_delta = false ->
  speed_mbps diff time_delta self = (self, Return (Int 0)).
Proof. intros Hgt. unfold speed_mbps. now rewrite Hgt. Qed.

(** The body of the adapter, call by call. *)
Lemma collect_network_info_body_cases w self :
  collect_network_info_body w self =
  match time_time w with
  | Raise e => (self, Raise e)
  | Return now =>
      match net_io_counters w with
      | Raise e => (self, Raise e)
      | Return None => (self, Raise AttributeError)
      | Return (Some cur) =>
          match network_last self with
          | None => (self, Raise AttributeError)
          | Some last =>
              let time_delta := (now - last_time self)%float in
              match value (speed_mbps (snetio.bytes_sent cur - snetio.bytes_sent last)
                             time_delta) self with
              | Raise e => (self, Raise e)
              | Return up =>
                  match value (speed_mbps (snetio.bytes_recv cur - snetio.bytes_recv last)
                                 time_delta) self with
                  | Raise e => (self, Raise e)
                  | Return down =>
                      (rate_state_set self (Some cur) now,
                       Return (network_info.mk
                                 (snetio.bytes_sent cur) (snetio.bytes_recv cur)
                                 (snetio.packets_sent cur) (snetio.packets_recv cur)
                                 up down))
                  end
              end
          end
      end
  end.
Proof.
  unfold collect_network_info_body.
  rewrite bind_eval. destruct (time_time w) as [now|e]; [|reflexivity].
  rewrite bind_eval. destruct (net_io_counters w) as [[cur|]|e]; try reflexivity.
  unfold bind at 1. cbn [get_self]. cbv beta iota zeta.
  destruct (network_last self) as [last|] eqn:Hlast.
  2:{ cbv [bind getattr eval ret]. reflexivity. }
  cbv [getattr].
  do 4 (unfold bind at 1; cbn [ret]).
  unfold bind at 1.
  rewrite (stateless_run _ self (stateless_speed_mbps _ _)).
  destruct (value (speed_mbps _ _) self) as [up|e]; [|reflexivity].
  unfold bind at 1.
  rewrite (stateless_run _ self (stateless_speed_mbps _ _)).
  destruct (value (speed_mbps _ _) self) as [down|e]; reflexivity.
Qed.

Lemma collect_network_info_body_returns w self now cur last up down :
  time_time w = Return now -> net_io_counters w = Return (Some cur) ->
  network_last self = Some last ->
  let time_delta := (now - last_time self)%float in
  speed_mbps (snetio.bytes_sent cur - snetio.bytes_sent last) time_delta self =
  (self, Return up) ->
  speed_mbps (snetio.bytes_recv cur - snetio.bytes_recv last) time_delta self =
  (self, Return down) ->
  collect_network_info_body w self =
  (rate_state_set self (Some cur) now,
   Return (network_info.mk (snetio.bytes_sent cur) (snetio.bytes_recv cur)
             (snetio.packets_sent cur) (snetio.packets_recv cur) up down)).
Proof.
  intros Hnow Hcur Hlast time_delta Hup Hdown.
  rewrite collect_network_info_body_cases, Hnow, Hcur, Hlast.
  cbv zeta. fold time_delta. unfold value. rewrite Hup, Hdown. reflexivity.
Qed.

(** An exception leaves the body before the two assignments to [self]. *)
Lemma collect_network_info_body_raises w self self' e :
  collect_network_info_body w self = (self', Raise e) -> self' = self.
Proof.
  rewrite collect_network_info_body_cases.
  destruct (time_time w) as [now|e1]; [|congruence].
  destruct (net_io_counters w) as [[cur|]|e1]; [|congruence|congruence].
  destruct (network_last self) as [last|]; [|congruence].
  cbv zeta.
  destruct (value (speed_mbps _ _) self) as [up|e1]; [|congruence].
  destruct (value (speed_mbps _ _) self) as [down|e1]; [|congruence].
  discriminate.
Qed.

(** The rates of an invocation whose calls return, by the sign of the
    elapsed time. *)
Lemma collect_network_info_rates w self now cur last :
  time_time w = Return now -> net_io_counters w = Return (Some cur) ->
  network_last self = Some last ->
  let time_delta := (now - last_time self)%float in
  let sent_diff := snetio.bytes_sent cur - snetio.bytes_sent last in
  let recv_diff := snetio.bytes_recv cur - snetio.bytes_recv last in
  (gt0 time_delta = true ->
   Z.abs sent_diff < float_limit -> Z.abs recv_diff < float_limit ->
   collect_network_info w self =
   (rate_state_set self (Some cur) now,
    Return (network_info.mk (snetio.bytes_sent cur) (snetio.bytes_recv cur)
              (snetio.packets_sent cur) (snetio.packets_recv cur)
              (Float (rate_mbps sent_diff time_delta))
              (Float (rate_mbps recv_diff time_delta))))) /\
  (gt0 time_delta = false ->
   collect_network_info w self =
   (rate_state_set self (Some cur) now,
    Return (network_info.mk (snetio.bytes_sent cur) (snetio.bytes_recv cur)
              (snetio.packets_sent cur) (snetio.packets_recv cur)
              (Int 0) (Int 0)))).
Proof.
  intros Hnow Hcur Hlast time_delta sent_diff recv_diff. split.
  - intros Hgt Hs Hr. unfold collect_network_info.
    apply try_except_Return.
    apply (collect_network_info_body_returns w self now cur last); try assumption;
      now apply speed_mbps_positive.
  - intros Hgt. unfold collect_network_info.
    apply try_except_Return.
    apply (collect_network_info_body_returns w self now cur last); try assumption;
      now apply speed_mbps_not_positive.
Qed.

(** C1 (network rate derivation): when the clock and the counters are read,
    with [time_delta] the current time minus [last_time] and the byte
    differences taken against the stored counters, the adapter reports
    [diff / time_delta * 8 / 1,000,000] in each direction when
    [time_delta > 0] (the differences being convertible to a float), and the
    integer 0 in each direction when [time_delta <= 0]. *)
Theorem network_rate_derivation (w : OS) (self : ResourceCollector)
    (now : float) (cur last : snetio.t) :
  time_time w = Return now -> net_io_counters w = Return (Some cur) ->
  network_last self = Some last ->
  let time_delta := (now - last_time self)%float in
  let sent_diff := snetio.bytes_sent cur - snetio.bytes_sent last in
  let recv_diff := snetio.bytes_recv cur - snetio.bytes_recv last in
  ((0 <? time_delta)%float = true ->
   Z.abs sent_diff < float_limit -> Z.abs recv_diff < float_limit ->
   exists info,
     value (collect_network_info w) self = Return info /\
     network_info.upload_speed_mbps info = Float (rate_mbps sent_diff time_delta) /\
     network_info.download_speed_mbps info = Float (rate_mbps recv_diff time_delta)) /\
  ((time_delta <=? 0)%float = true ->
   exists info,
     value (collect_network_info w) self = Return info /\
     network_info.upload_speed_mbps info = Int 0 /\
     network_info.download_speed_mbps info = Int 0).
Proof.
  intros Hnow Hcur Hlast time_delta sent_diff recv_diff.
  destruct (collect_network_info_rates w self now cur last Hnow Hcur Hlast)
    as [Hpos Hnon].
  split.
  - intros Hgt Hs Hr. eexists. unfold value.
    rewrite (Hpos Hgt Hs Hr). cbn. repeat split.
  - intros Hle. eexists. unfold value.
    rewrite (Hnon (le0_not_gt0 _ Hle)). cbn. repeat split.
Qed.

Lemma network_rate_derivation_witness :
  (exists info,
     value (collect_network_info healthy_os) sample_collector = Return info /\
     network_info.upload_speed_mbps info = Float 1 /\
     network_info.download_speed_mbps info = Float 2) /\
  (exists info,
     value (collect_network_info same_instant_os) sample_collector = Return info /\
     network_info.upload_speed_mbps info = Int 0 /\
     network_info.download_speed_mbps info = Int 0).
Proof.
  split.
  - destruct (network_rate_derivation healthy_os sample_collector 101%float
                (snetio.mk 1125000 2250000 110 220)
                (snetio.mk 1000000 2000000 100 200))
      as [Hpos _]; [reflexivity | reflexivity | reflexivity |].
    destruct Hpos as (info & Hrun & Hup & Hdown);
      [reflexivity | reflexivity | reflexivity |].
    exists info. split; [exact Hrun|]. split.
    + rewrite Hup. reflexivity.
    + rewrite Hdown. reflexivity.
  - destruct (network_rate_derivation same_instant_os sample_collector 100%float
                (snetio.mk 1125000 2250000 110 220)
                (snetio.mk 1000000 2000000 100 200))
      as [_ Hnon]; [reflexivity | reflexivity | reflexivity |].
    apply Hnon. reflexivity.
Defined.

(** C5 (RateState update): an invocation of the network adapter that does
    not fail has read the clock and the counters, and leaves exactly those
    values in [last_time] and [network_last]; this includes the invocation
    whose elapsed time is not positive, which does not fail, reports 0 in
    both directions and stores the values it read. *)
Theorem rate_state_updated_unconditionally (w : OS) (self : ResourceCollector) :
  (forall self' info,
     collect_network_info_body w self = (self', Return info) ->
     exists now cur,
       time_time w = Return now /\ net_io_counters w = Return (Some cur) /\
       after (collect_network_info w) self = self' /\
       network_last self' = Some cur /\ last_time self' = now) /\
  (forall now cur last,
     time_time w = Return now -> net_io_counters w = Return (Some cur) ->
     network_last self = Some last ->
     (now - last_time self <=? 0)%float = true ->
     exists info,
       collect_network_info w self = (rate_state_set self (Some cur) now, Return info) /\
       network_info.upload_speed_mbps info = Int 0 /\
       network_info.download_speed_mbps info = Int 0).
Proof.
  split.
  - intros self' info Hbody.
    assert (Hrun : after (collect_network_info w) self = self').
    { unfold after, collect_network_info.
      now rewrite (try_except_Return _ _ _ _ _ _ Hbody). }
    rewrite collect_network_info_body_cases in Hbody.
    destruct (time_time w) as [now|e]; [|discriminate].
    destruct (net_io_counters w) as [[cur|]|e]; [|discriminate|discriminate].
    destruct (network_last self) as [last|]; [|discriminate].
    cbv zeta in Hbody.
    destruct (value (speed_mbps _ _) self) as [up|e]; [|discriminate].
    destruct (value (speed_mbps _ _) self) as [down|e]; [|discriminate].
    injection Hbody as <- _.
    exists now, cur. repeat split; assumption.
  - intros now cur last Hnow Hcur Hlast Hle.
    destruct (collect_network_info_rates w self now cur last Hnow Hcur Hlast)
      as [_ Hnon].
    eexists. rewrite (Hnon (le0_not_gt0 _ Hle)). repeat split.
Qed.

Lemma rate_state_updated_unconditionally_witness :
  (exists now cur,
     time_time healthy_os = Return now /\
     net_io_counters healthy_os = Return (Some cur) /\
     network_last (after (collect_network_info healthy_os) sample_collector) = Some cur /\
     last_time (after (collect_network_info healthy_os) sample_collector) = now) /\
  (exists info,
     collect_network_info same_instant_os sample_collector =
     (rate_state_set sample_collector
        (Some (snetio.mk 1125000 2250000 110 220)) 100%float, Return info) /\
     network_info.upload_speed_mbps info = Int 0 /\
     network_info.download_speed_mbps info = Int 0).
Proof.
  split.
  - destruct (rate_state_updated_unconditionally healthy_os sample_collector)
      as [Hupd _].
    destruct (Hupd (rate_state_set sample_collector
                      (Some (snetio.mk 1125000 2250000 110 220)) 101%float)
                (network_info.mk 1125000 2250000 110 220 (Float 1) (Float 2)))
      as (now & cur & Hnow & Hcur & Hafter & Hlast & Htime); [reflexivity|].
    exists now, cur. rewrite Hafter. repeat split; assumption.
  - destruct (rate_state_updated_unconditionally same_instant_os sample_collector)
      as [_ Hzero].
    apply (Hzero 100%float (snetio.mk 1125000 2250000 110 220)
             (snetio.mk 1000000 2000000 100 200)); reflexivity.
Defined.

(** C9 (RateState on the failure path): when the body of the network
    adapter raises, [network_last] and [last_time] are as before the
    invocation (an [Exception] being turned into the zeroed record); the
    next invocation that succeeds therefore derives its rates from the
    counters and the time of the last successful sample, across the failed
    tick. *)
Theorem rate_state_unchanged_on_failure (failed : OS) (self : ResourceCollector)
    (self' : ResourceCollector) (e : exn) :
  collect_network_info_body failed self = (self', Raise e) ->
  self' = self /\
  (is_Exception e = true ->
   collect_network_info failed self = (self, Return network_default) /\
   forall next now cur last,
     time_time next = Return now -> net_io_counters next = Return (Some cur) ->
     network_last self = Some last ->
     let time_delta := (now - last_time self)%float in
     let sent_diff := snetio.bytes_sent cur - snetio.bytes_sent last in
     let recv_diff := snetio.bytes_recv cur - snetio.bytes_recv last in
     (0 <? time_delta)%float = true ->
     Z.abs sent_diff < float_limit -> Z.abs recv_diff < float_limit ->
     exists info,
       value (collect_network_info next)
             (after (collect_network_info failed) self) = Return info /\
       network_info.upload_speed_mbps info = Float (rate_mbps sent_diff time_delta) /\
       network_info.download_speed_mbps info = Float (rate_mbps recv_diff time_delta)).
Proof.
  intros Hbody.
  assert (Hself : self' = self) by exact (collect_network_info_body_raises _ _ _ _ Hbody).
  subst self'. split; [reflexivity|].
  intros He.
  assert (Hrun : collect_network_info failed self = (self, Return network_default)).
  { unfold collect_network_info.
    rewrite (try_except_Raise _ _ _ _ _ _ Hbody), He. reflexivity. }
  split; [exact Hrun|].
  intros next now cur last Hnow Hcur Hlast time_delta sent_diff recv_diff Hgt Hs Hr.
  unfold after. rewrite Hrun. cbn [fst].
  destruct (collect_network_info_rates next self now cur last Hnow Hcur Hlast)
    as [Hpos _].
  eexists. unfold value. rewrite (Hpos Hgt Hs Hr). repeat split.
Qed.

Lemma rate_state_unchanged_on_failure_witness :
  collect_network_info failing_os sample_collector =
  (sample_collector, Return network_default) /\
  exists info,
    value (collect_network_info healthy_os)
          (after (collect_network_info failing_os) sample_collector) = Return info /\
    network_info.upload_speed_mbps info = Float 1 /\
    network_info.download_speed_mbps info = Float 2.
Proof.
  destruct (rate_state_unchanged_on_failure failing_os sample_collector
              sample_collector OSError) as [_ H]; [reflexivity|].
  destruct H as [Hrun Hnext]; [reflexivity|].
  split; [exact Hrun|].
  destruct (Hnext healthy_os 101%float (snetio.mk 1125000 2250000 110 220)
              (snetio.mk 1000000 2000000 100 200))
    as (info & Hinfo & Hup & Hdown);
    [reflexivity | reflexivity | reflexivity | reflexivity | reflexivity | reflexivity |].
  exists info. split; [exact Hinfo|]. split.
  - rewrite Hup. reflexivity.
  - rewrite Hdown. reflexivity.
Defined.

(** ** The sampler *)

Lemma collect_network_info_history w self :
  data_history (after (collect_network_info w) self) = data_history self.
Proof.
  unfold after, collect_network_info, try_except.
  destruct (collect_network_info_body w self) as [self' [info|e]] eqn:Hbody.
  - rewrite collect_network_info_body_cases in Hbody.
    destruct (time_time w) as [now|e]; [|discriminate].
    destruct (net_io_counters w) as [[cur|]|e]; [|discriminate|discriminate].
    destruct (network_last self) as [last|]; [|discriminate].
    cbv zeta in Hbody.
    destruct (value (speed_mbps _ _) self) as [up|e]; [|discriminate].
    destruct (value (speed_mbps _ _) self) as [down|e]; [|discriminate].
    injection Hbody as <- _. reflexivity.
  - apply collect_network_info_body_raises in Hbody. subst self'.
    destruct (is_Exception e); reflexivity.
Qed.

(** One tick, adapter by adapter. *)
Lemma collect_all_cases w self :
  collect_all w self =
  match value (collect_cpu_info w) self with
  | Raise e => (self, Raise e)
  | Return cpu_ =>
      match value (collect_memory_info w) self with
      | Raise e => (self, Raise e)
      | Return memory_ =>
          match value (collect_disk_info w) self with
          | Raise e => (self, Raise e)
          | Return disk_ =>
              match collect_network_info w self with
              | (self1, Raise e) => (self1, Raise e)
              | (self1, Return network_) =>
                  match value (collect_gpu_info w) self with
                  | Raise e => (self1, Raise e)
                  | Return gpu_ =>
                      let data := {| timestamp := datetime_now w; cpu := cpu_;
                                     memory := memory_; disk := disk_;
                                     network := network_; gpu := gpu_ |} in
                      (history_append self1 data, Return data)
                  end
              end
          end
      end
  end.
Proof.
  unfold collect_all. cbv zeta.
  unfold bind at 1. rewrite (stateless_run _ self (stateless_collect_cpu_info w)).
  destruct (value (collect_cpu_info w) self) as [cpu_|e]; [|reflexivity].
  unfold bind at 1. rewrite (stateless_run _ self (stateless_collect_memory_info w)).
  destruct (value (collect_memory_info w) self) as [memory_|e]; [|reflexivity].
  unfold bind at 1. rewrite (stateless_run _ self (stateless_collect_disk_info w)).
  destruct (value (collect_disk_info w) self) as [disk_|e]; [|reflexivity].
  unfold bind at 1.
  destruct (collect_network_info w self) as [self1 [network_|e]]; [|reflexivity].
  unfold bind at 1. rewrite (stateless_run _ self1 (stateless_collect_gpu_info w)).
  rewrite (stateless_value _ self1 self (stateless_collect_gpu_info w)).
  destruct (value (collect_gpu_info w) self) as [gpu_|e]; reflexivity.
Qed.

(** A tick that returns has appended the snapshot it returns, stamped with
    the clock reading of the tick. *)
Lemma collect_all_Return w self self' data :
  collect_all w self = (self', Return data) ->
  data_history self' = data_history self ++ [data] /\
  timestamp data = datetime_now w.
Proof.
  rewrite collect_all_cases. intros H.
  destruct (value (collect_cpu_info w) self); [|discriminate].
  destruct (value (collect_memory_info w) self); [|discriminate].
  destruct (value (collect_disk_info w) self); [|discriminate].
  pose proof (collect_network_info_history w self) as Hh. unfold after in Hh.
  destruct (collect_network_info w self) as [self1 [network_|e]]; [|discriminate].
  destruct (value (collect_gpu_info w) self); [|discriminate].
  cbv zeta in H. injection H as <- <-. cbn in *. now rewrite Hh.
Qed.

(** A tick that raises has appended nothing. *)
Lemma collect_all_Raise w self self' e :
  collect_all w self = (self', Raise e) ->
  data_history self' = data_history self.
Proof.
  rewrite collect_all_cases. intros H.
  destruct (value (collect_cpu_info w) self); [|congruence].
  destruct (value (collect_memory_info w) self); [|congruence].
  destruct (value (collect_disk_info w) self); [|congruence].
  pose proof (collect_network_info_history w self) as Hh. unfold after in Hh.
  destruct (collect_network_info w self) as [self1 [network_|e1]].
  - destruct (value (collect_gpu_info w) self); [discriminate|].
    injection H as <- _. exact Hh.
  - injection H as <- _. exact Hh.
Qed.

(** ** The adapters under failing calls *)

Lemma read_cpu_temp_cases w self :
  read_cpu_temp w self =
  (self, match sensors_temperatures w with
         | Return temps => Return (cpu_temperature_rule temps)
         | Raise e => if sensor_guard e then Return None else Raise e
         end).
Proof.
  destruct (sensors_temperatures w) as [temps|e] eqn:Ht.
  - now apply read_cpu_temp_rule.
  - unfold read_cpu_temp, try_except. rewrite bind_eval, Ht.
    destruct (sensor_guard e); reflexivity.
Qed.

Lemma by_default {A} (e : exn) (d : A) (self : ResourceCollector) :
  is_Exception e = true ->
  (if is_Exception e then ret d self else (self, Raise e)) = (self, Return d).
Proof. intros ->. reflexivity. Qed.

Lemma collect_cpu_info_policy w self :
  no_BaseException (cpu_percent w) = true ->
  no_BaseException (cpu_count w) = true ->
  no_BaseException (cpu_freq w) = true ->
  no_BaseException (sensors_temperatures w) = true ->
  exists info,
    collect_cpu_info w self = (self, Return info) /\
    (cpu_call_fails w = true -> info = cpu_default).
Proof.
  unfold collect_cpu_info, collect_cpu_info_body, try_except, cpu_call_fails.
  intros Hp Hc Hf Ht.
  rewrite bind_eval.
  destruct (cpu_percent w) as [p|e]; cbn in Hp;
    [|rewrite (by_default _ _ _ Hp); eauto].
  rewrite bind_eval.
  destruct (cpu_count w) as [c|e]; cbn in Hc;
    [|rewrite (by_default _ _ _ Hc); eauto].
  rewrite bind_eval.
  destruct (cpu_freq w) as [f|e]; cbn in Hf;
    [|rewrite (by_default _ _ _ Hf); eauto].
  unfold bind. rewrite read_cpu_temp_cases.
  destruct (sensors_temperatures w) as [temps|e]; cbn in Ht.
  - eexists. split; [reflexivity|]. cbn. discriminate.
  - destruct (sensor_guard e).
    + eexists. split; [reflexivity|]. cbn. discriminate.
    + rewrite (by_default _ _ _ Ht); eauto.
Qed.

Lemma collect_memory_info_policy w self :
  no_BaseException (virtual_memory w) = true ->
  no_BaseException (swap_memory w) = true ->
  exists info,
    collect_memory_info w self = (self, Return info) /\
    (memory_call_fails w = true -> info = memory_default).
Proof.
  unfold collect_memory_info, collect_memory_info_body, try_except, memory_call_fails.
  intros Hm Hs.
  rewrite bind_eval.
  destruct (virtual_memory w) as [mem|e]; cbn in Hm;
    [|rewrite (by_default _ _ _ Hm); eauto].
  rewrite bind_eval.
  destruct (swap_memory w) as [swap|e]; cbn in Hs;
    [|rewrite (by_default _ _ _ Hs); eauto].
  eexists. split; [reflexivity|]. cbn. discriminate.
Qed.

Lemma collect_disk_info_policy w self :
  no_BaseException (disk_usage w) = true ->
  no_BaseException (disk_io_counters w) = true ->
  exists info,
    collect_disk_info w self = (self, Return info) /\
    (disk_call_fails w = true -> info = disk_default).
Proof.
  unfold collect_disk_info, collect_disk_info_body, try_except, disk_call_fails.
  intros Hd Hi.
  rewrite bind_eval.
  destruct (disk_usage w) as [usage|e]; cbn in Hd;
    [|rewrite (by_default _ _ _ Hd); eauto].
  rewrite bind_eval.
  destruct (disk_io_counters w) as [io|e]; cbn in Hi;
    [|rewrite (by_default _ _ _ Hi); eauto].
  eexists. split; [reflexivity|]. cbn. discriminate.
Qed.

Lemma speed_mbps_raises diff time_delta self self' e :
  speed_mbps diff time_delta self = (self', Raise e) -> is_Exception e = true.
Proof.
  unfold speed_mbps, truediv_int_float, float_of_int.
  destruct (gt0 time_delta); [|discriminate].
  rewrite bind_eval.
  destruct (Z.abs diff <? float_limit).
  - destruct (time_delta =? 0)%float; [|discriminate].
    now intros [= _ <-].
  - now intros [= _ <-].
Qed.

Lemma speed_mbps_value_raises diff time_delta self e :
  value (speed_mbps diff time_delta) self = Raise e -> is_Exception e = true.
Proof.
  unfold value. intros H.
  apply (speed_mbps_raises diff time_delta self
           (fst (speed_mbps diff time_delta self)) e).
  rewrite <- H. apply surjective_pairing.
Qed.

Lemma collect_network_info_policy w self :
  no_BaseException (time_time w) = true ->
  no_BaseException (net_io_counters w) = true ->
  exists self' info,
    collect_network_info w self = (self', Return info) /\
    (network_call_fails w = true -> info = network_default /\ self' = self).
Proof.
  unfold collect_network_info, try_except, network_call_fails.
  intros Ht Hn.
  assert (Hdefault : exists self' info,
             (self, Return network_default) = (self', Return info) /\
             info = network_default /\ self' = self) by (do 2 eexists; repeat split).
  destruct Hdefault as (self0 & info0 & Hrun0 & Hinfo0 & Hself0).
  rewrite collect_network_info_body_cases.
  destruct (time_time w) as [now|e]; cbn in Ht;
    [|rewrite (by_default _ _ _ Ht); now eauto 6].
  destruct (net_io_counters w) as [[cur|]|e]; cbn in Hn;
    [| cbn; now eauto 6 | rewrite (by_default _ _ _ Hn); now eauto 6].
  destruct (network_last self) as [last|]; [|cbn; now eauto 6].
  cbv zeta.
  destruct (value (speed_mbps _ _) self) as [up|e] eqn:Hup.
  2:{ pose proof (speed_mbps_value_raises _ _ _ _ Hup) as He.
      cbv beta iota. rewrite He. cbn; now eauto 6. }
  clear Hup.
  destruct (value (speed_mbps _ _) self) as [down|e] eqn:Hdown.
  2:{ pose proof (speed_mbps_value_raises _ _ _ _ Hdown) as He.
      cbv beta iota. rewrite He. cbn; now eauto 6. }
  do 2 eexists. split; [reflexivity|]. cbn. discriminate.
Qed.

Lemma collect_gpu_info_policy w self :
  no_BaseException (getGPUs w) = true ->
  exists info,
    collect_gpu_info w self = (self, Return info) /\
    (gpu_call_fails w = true -> info = None).
Proof.
  unfold collect_gpu_info, try_except, gpu_call_fails.
  intros Hg. destruct (GPU_AVAILABLE w); cbn [negb].
  2:{ exists None. split; reflexivity. }
  rewrite bind_eval.
  destruct (getGPUs w) as [gpus|e]; cbn in Hg.
  2:{ rewrite (by_default _ _ _ Hg). exists None. split; reflexivity. }
  destruct gpus; cbn [truthy negb].
  - eexists. split; [reflexivity|]. cbn. discriminate.
  - eexists. split; [reflexivity|]. cbn. discriminate.
Qed.

(** C7 (adapter error policy): on a tick whose calls into the operating
    system either return or raise an [Exception], no adapter raises:
    [collect_all] returns a full snapshot and appends it to the history;
    each record of the snapshot is what its own adapter returns, whatever
    the other adapters met; the record of an adapter with a failed call is
    the zeroed (for the GPU, absent) default of that resource; and when
    every adapter fails the appended snapshot is the all-default one. *)
Theorem adapter_error_policy (w : OS) (self : ResourceCollector) :
  os_raises_Exception_only w = true ->
  exists self' data,
    collect_all w self = (self', Return data) /\
    data_history self' = data_history self ++ [data] /\
    value (collect_cpu_info w) self = Return (cpu data) /\
    value (collect_memory_info w) self = Return (memory data) /\
    value (collect_disk_info w) self = Return (disk data) /\
    value (collect_network_info w) self = Return (network data) /\
    value (collect_gpu_info w) self = Return (gpu data) /\
    (cpu_call_fails w = true -> cpu data = cpu_default) /\
    (memory_call_fails w = true -> memory data = memory_default) /\
    (disk_call_fails w = true -> disk data = disk_default) /\
    (network_call_fails w = true -> network data = network_default) /\
    (gpu_call_fails w = true -> gpu data = None) /\
    (cpu_call_fails w && memory_call_fails w && disk_call_fails w &&
     network_call_fails w && gpu_call_fails w = true ->
     data = degraded_snapshot (datetime_now w)).
Proof.
  unfold os_raises_Exception_only. intros H.
  repeat (apply andb_prop in H; destruct H as [H ?]).
  destruct (collect_cpu_info_policy w self) as (cpu_ & Hcpu & Dcpu); try assumption.
  destruct (collect_memory_info_policy w self) as (memory_ & Hmem & Dmem);
    try assumption.
  destruct (collect_disk_info_policy w self) as (disk_ & Hdisk & Ddisk);
    try assumption.
  destruct (collect_network_info_policy w self) as (self1 & network_ & Hnet & Dnet);
    try assumption.
  destruct (collect_gpu_info_policy w self) as (gpu_ & Hgpu & Dgpu); try assumption.
  pose proof (collect_all_cases w self) as Hall.
  unfold value in *. rewrite Hcpu, Hmem, Hdisk, Hnet, Hgpu in *. cbn in Hall.
  do 2 eexists. split; [exact Hall|].
  destruct (collect_all_Return _ _ _ _ Hall) as [Hhist _].
  split; [exact Hhist|]. cbn.
  repeat (split; [solve [reflexivity | assumption | intros Hf; now apply Dnet]|]).
  intros Hf.
  repeat (apply andb_prop in Hf; destruct Hf as [Hf ?]).
  unfold degraded_snapshot.
  rewrite Dcpu, Dmem, Ddisk, Dgpu by assumption.
  destruct Dnet as [-> _]; [assumption|]. reflexivity.
Qed.

Lemma adapter_error_policy_witness :
  exists self',
    collect_all failing_os sample_collector =
    (self', Return (degraded_snapshot 6000000)) /\
    data_history self' = [degraded_snapshot 6000000].
Proof.
  destruct (adapter_error_policy failing_os sample_collector)
    as (self' & data & Hrun & Hhist & _ & _ & _ & _ & _ & _ & _ & _ & _ & _ & Hall);
    [reflexivity|].
  assert (Hdata : data = degraded_snapshot 6000000) by (apply Hall; reflexivity).
  subst data. exists self'. split; [exact Hrun | exact Hhist].
Defined.

(** The sensor query failing inside its guard degrades the temperature
    alone: the other fields of the CPU record keep their readings. *)
Lemma cpu_sensor_unavailable w self p c f e :
  cpu_percent w = Return p -> cpu_count w = Return c -> cpu_freq w = Return f ->
  sensors_temperatures w = Raise e -> sensor_guard e = true ->
  collect_cpu_info w self =
  (self, Return (cpu_info.mk (Float p) c (option_map scpufreq.current f)
                   (option_map scpufreq.max f) None)).
Proof.
  intros Hp Hc Hf Ht Hg.
  unfold collect_cpu_info, collect_cpu_info_body.
  apply try_except_Return.
  rewrite bind_eval, Hp, bind_eval, Hc, bind_eval, Hf.
  unfold bind. rewrite read_cpu_temp_cases, Ht, Hg. reflexivity.
Qed.

(** ** The history over a run *)

Lemma sample_cons w rest self :
  sample (w :: rest) self =
  (fst (sample rest (fst (collect_all w self))),
   snd (collect_all w self) :: snd (sample rest (fst (collect_all w self)))).
Proof.
  cbn [sample]. destruct (collect_all w self) as [self' r]. cbn [fst snd].
  destruct (sample rest self') as [self'' log]. reflexivity.
Qed.

(** The history grows by exactly the snapshots that were returned. *)
Lemma sample_history ws self :
  data_history (fst (sample ws self)) =
  data_history self ++ successes (snd (sample ws self)).
Proof.
  revert self. induction ws as [|w rest IH]; intros self.
  - cbn. now rewrite app_nil_r.
  - rewrite sample_cons. cbn [fst snd]. rewrite IH.
    destruct (collect_all w self) as [self' [data|e]] eqn:Hrun; cbn [fst snd successes].
    + destruct (collect_all_Return _ _ _ _ Hrun) as [-> _].
      now rewrite <- app_assoc.
    + now rewrite (collect_all_Raise _ _ _ _ Hrun).
Qed.

(** Every snapshot of the log carries the clock reading of its tick. *)
Lemma successes_readings ws self :
  map timestamp (successes (snd (sample ws self))) =
  readings ws (snd (sample ws self)).
Proof.
  revert self. induction ws as [|w rest IH]; intros self.
  - reflexivity.
  - rewrite sample_cons. cbn [fst snd].
    specialize (IH (fst (collect_all w self))).
    destruct (collect_all w self) as [self' [data|e]] eqn:Hrun;
      cbn [fst snd successes readings map] in *.
    + destruct (collect_all_Return _ _ _ _ Hrun) as [_ ->]. now rewrite IH.
    + exact IH.
Qed.

(** The readings of the invocations that returned are readings of the
    run. *)
Lemma readings_incl ws log :
  incl (readings ws log) (map datetime_now ws).
Proof.
  revert log. induction ws as [|w rest IH]; intros log.
  - intros z [].
  - destruct log as [|[data|e] log]; cbn [readings map].
    + intros z [].
    + intros z [<- | Hin]; [now left | right; now apply (IH log)].
    + intros z Hin. right. now apply (IH log).
Qed.

Lemma readings_sorted ws log :
  clock_increasing ws -> StronglySorted Z.lt (readings ws log).
Proof.
  unfold clock_increasing. intros Hclock. revert log.
  induction Hclock as [|w rest Hrest IH Hlater]; intros log.
  - destruct log as [|[data|e] log]; constructor.
  - destruct log as [|[data|e] log]; cbn [readings]; [constructor | | apply IH].
    constructor; [apply IH|].
    apply Forall_forall. intros z Hin.
    apply readings_incl, in_map_iff in Hin. destruct Hin as (w' & <- & Hin).
    rewrite Forall_forall in Hlater. now apply Hlater.
Qed.

Lemma StronglySorted_step {A} (R : A -> A -> Prop) (l : list A) (i : nat) (a b : A) :
  StronglySorted R l ->
  nth_error l i = Some a -> nth_error l (S i) = Some b -> R a b.
Proof.
  intros Hs. revert i. induction Hs as [|x l Hs IH Hx]; intros i Ha Hb.
  - destruct i; discriminate.
  - destruct i as [|i].
    + cbn in Ha, Hb. injection Ha as <-.
      rewrite Forall_forall in Hx. apply Hx.
      now apply (nth_error_In l 0).
    + cbn in Ha. cbn [nth_error] in Hb. now apply (IH i).
Qed.

(** C3 (history invariant), as the code has it: over any run of the sampler
    the history is extended, never rewritten: it is the history before the
    run followed by the snapshots of the successful invocations, in order,
    so its length grows by their number.  On a collector that starts empty,
    the timestamps of the history are the wall-clock readings of the
    successful invocations, in order; they are strictly increasing whenever
    the wall clock read later at every invocation than at the ones before
    it.  The sampling interval plays no part. *)
Theorem history_invariant (ws : list OS) (self : ResourceCollector) :
  let self' := fst (sample ws self) in
  let log := snd (sample ws self) in
  data_history self' = data_history self ++ successes log /\
  List.length (data_history self') =
  (List.length (data_history self) + List.length (successes log))%nat /\
  (data_history self = [] ->
   List.length (data_history self') = List.length (successes log) /\
   map timestamp (data_history self') = readings ws log /\
   (clock_increasing ws ->
    forall i a b,
      nth_error (data_history self') i = Some a ->
      nth_error (data_history self') (S i) = Some b ->
      timestamp a < timestamp b)).
Proof.
  cbv zeta. pose proof (sample_history ws self) as Hh.
  split; [exact Hh|]. split; [now rewrite Hh, length_app|].
  intros Hempty. rewrite Hh, Hempty. cbn [app].
  split; [reflexivity|]. split; [apply successes_readings|].
  intros Hclock i a b Ha Hb.
  pose proof (readings_sorted ws (snd (sample ws self)) Hclock) as Hsorted.
  rewrite <- successes_readings in Hsorted.
  apply (StronglySorted_step Z.lt _ i (timestamp a) (timestamp b) Hsorted).
  - now rewrite nth_error_map, Ha.
  - now rewrite nth_error_map, Hb.
Qed.

Lemma history_invariant_witness :
  List.length (data_history (fst (sample [healthy_os; failing_os] sample_collector)))
  = 2%nat /\
  map timestamp (data_history (fst (sample [healthy_os; failing_os] sample_collector)))
  = [1000000; 6000000] /\
  exists a b,
    nth_error (data_history (fst (sample [healthy_os; failing_os] sample_collector))) 0
    = Some a /\
    nth_error (data_history (fst (sample [healthy_os; failing_os] sample_collector))) 1
    = Some b /\
    timestamp a < timestamp b.
Proof.
  destruct (history_invariant [healthy_os; failing_os] sample_collector)
    as (_ & _ & H).
  destruct H as (Hlen & Hstamps & Hsorted); [reflexivity|].
  split; [rewrite Hlen; reflexivity|].
  split; [rewrite Hstamps; reflexivity|].
  do 2 eexists. split; [reflexivity|]. split; [reflexivity|].
  apply (Hsorted ltac:(repeat constructor) 0%nat); reflexivity.
Defined.

(** A positive sampling interval does not order the timestamps: the run
    below is scheduled every 20 seconds, nothing fails, and the host's clock
    is set back between the first tick and the second; the second snapshot
    of the history is stamped earlier than the first. *)
Lemma history_timestamps_counterexample :
  0 < 20 /\
  exists history a b,
    monitor_system 1 20 healthy_os clock_set_back = Finalized history /\
    nth_error history 0 = Some a /\ nth_error history 1 = Some b /\
    ~ timestamp a < timestamp b.
Proof.
  split; [lia|].
  do 3 eexists. split; [reflexivity|]. split; [reflexivity|]. split; [reflexivity|].
  cbn. lia.
Qed.

(** ** The collection loop *)

(** After a tick that returned, the rest of the [try] block leaves the
    collector alone: it formats, draws the bar and waits. *)
Lemma loop_body_after_tick env total_iterations i self self' data :
  collect_all (os (env i)) self = (self', Return data) ->
  loop_body env total_iterations i self =
  (self',
   match format_f (cpu_info.percent (cpu data)) with
   | Raise e => Raise e
   | Return _ =>
       match format_f (memory_info.percent (memory data)) with
       | Raise e => Raise e
       | Return _ =>
           match print_progress_bar (Z.of_nat i + 1) total_iterations 40 [block] with
           | Raise e => Raise e
           | Return _ =>
               if Z.of_nat i <? total_iterations - 1
               then sleep (env i)
               else Return tt
           end
       end
   end).
Proof.
  intros Hrun. unfold loop_body. rewrite (bind_Return _ _ _ _ _ Hrun).
  rewrite bind_eval.
  destruct (format_f (cpu_info.percent (cpu data))); [|reflexivity].
  rewrite bind_eval.
  destruct (format_f (memory_info.percent (memory data))); [|reflexivity].
  rewrite bind_eval.
  destruct (print_progress_bar _ _ _ _); [|reflexivity].
  destruct (Z.of_nat i <? total_iterations - 1); reflexivity.
Qed.

Lemma loop_body_collector env total_iterations i self :
  fst (loop_body env total_iterations i self) = fst (collect_all (os (env i)) self).
Proof.
  destruct (collect_all (os (env i)) self) as [self' [data|e]] eqn:Hrun.
  - now rewrite (loop_body_after_tick _ _ _ _ _ _ Hrun).
  - unfold loop_body. now rewrite (bind_Raise _ _ _ _ _ Hrun).
Qed.

(** The collector the loop leaves is the one a run of the sampler over the
    first iterations leaves: the loop touches the history through
    [collect_all] only. *)
Lemma collection_loop_sample env total_iterations remaining i self :
  exists k, (k <= remaining)%nat /\
    fst (collection_loop env total_iterations remaining i self) =
    fst (sample (ticks env i k) self).
Proof.
  revert i self. induction remaining as [|remaining IH]; intros i self.
  - exists 0%nat. split; [lia | reflexivity].
  - cbn [collection_loop].
    pose proof (loop_body_collector env total_iterations i self) as Hbody.
    destruct (loop_body env total_iterations i self) as [self' [u|e]]; cbn [fst] in Hbody.
    + destruct (IH (S i) self') as (k & Hk & Hloop).
      exists (S k). split; [lia|].
      unfold ticks. cbn [seq map]. rewrite sample_cons. cbn [fst].
      rewrite <- Hbody. exact Hloop.
    + exists 1%nat. split; [lia|].
      unfold ticks. cbn [seq map]. rewrite sample_cons. cbn [fst sample].
      exact Hbody.
Qed.

(** C2 (cancellation mid-run), at the scenario of the specification: three
    ticks are scheduled (1 minute, every 20 seconds) and the user interrupts
    the wait after the first tick.  The history holds the one snapshot, but
    the run takes the [return] of the interrupt handler ("No data
    collected"), so nothing is handed to the graphs and the report. *)
Theorem cancel_after_first_tick_aborts :
  exists collector data,
    monitor_system 1 20 healthy_os (interrupted_after 0) = Aborted collector /\
    data_history collector = [data].
Proof. do 2 eexists. split; reflexivity. Qed.

(** The same interrupt one tick later finalizes with the two snapshots. *)
Lemma cancel_after_second_tick_finalizes :
  exists first second,
    monitor_system 1 20 healthy_os (interrupted_after 1) = Finalized [first; second].
Proof. do 2 eexists. reflexivity. Qed.

(** * Further properties of the collector *)

Lemma init_history w collector :
  init w = Return collector ->
  data_history collector = [] /\ network_last collector = match net_io_counters w with
                                                          | Return counters => counters
                                                          | Raise _ => None
                                                          end.
Proof.
  unfold init. destruct (net_io_counters w) as [counters|e]; [|discriminate].
  destruct (time_time w) as [t|e]; [|discriminate].
  intros [= <-]. split; reflexivity.
Qed.

(** [clear_history] empties the history and leaves the network cursor
    alone; the history of any run that follows holds the snapshots of that
    run and nothing else. *)
Theorem clear_history_restarts_the_history (self : ResourceCollector) (ws : list OS) :
  value clear_history self = Return tt /\
  value get_history (after clear_history self) = Return [] /\
  network_last (after clear_history self) = network_last self /\
  last_time (after clear_history self) = last_time self /\
  data_history (fst (sample ws (after clear_history self))) =
  successes (snd (sample ws (after clear_history self))).
Proof.
  repeat split.
  now rewrite sample_history.
Qed.

(** With no stored counters the body of the network adapter cannot
    return. *)
Lemma collect_network_info_without_counters w self :
  network_last self = None ->
  after (collect_network_info w) self = self /\
  forall info, value (collect_network_info w) self = Return info ->
               info = network_default.
Proof.
  intros Hlast. unfold after, value, collect_network_info, try_except.
  rewrite collect_network_info_body_cases, Hlast.
  destruct (time_time w) as [now|e].
  2:{ destruct (is_Exception e); cbn; split; congruence. }
  destruct (net_io_counters w) as [[cur|]|e]; cbn.
  - split; congruence.
  - split; congruence.
  - destruct (is_Exception e); cbn; split; congruence.
Qed.

Lemma collect_all_without_counters w self :
  network_last self = None ->
  network_last (fst (collect_all w self)) = None /\
  forall data, snd (collect_all w self) = Return data ->
               network data = network_default.
Proof.
  intros Hlast.
  destruct (collect_network_info_without_counters w self Hlast) as [Hafter Hinfo].
  unfold after, value in *.
  rewrite collect_all_cases.
  destruct (value (collect_cpu_info w) self); [|cbn; split; congruence].
  destruct (value (collect_memory_info w) self); [|cbn; split; congruence].
  destruct (value (collect_disk_info w) self); [|cbn; split; congruence].
  destruct (collect_network_info w self) as [self1 [network_|e]];
    cbn [fst snd] in *; subst self1; [|cbn; split; congruence].
  destruct (value (collect_gpu_info w) self); [|cbn; split; congruence].
  cbn. split; [exact Hlast|].
  intros data [= <-]. cbn. now apply Hinfo.
Qed.

(** A collector built while [psutil] reported no network interface keeps
    [network_last = None] for the whole run: every snapshot it produces
    carries the zeroed network record, whatever the later ticks read. *)
Theorem no_counters_at_startup_zeroes_network (startup : OS)
    (collector : ResourceCollector) (ws : list OS) :
  init startup = Return collector -> net_io_counters startup = Return None ->
  network_last (fst (sample ws collector)) = None /\
  Forall (fun data => network data = network_default)
         (successes (snd (sample ws collector))).
Proof.
  intros Hinit Hnone.
  destruct (init_history _ _ Hinit) as [_ Hlast]. rewrite Hnone in Hlast.
  clear Hinit Hnone. revert collector Hlast.
  induction ws as [|w rest IH]; intros collector Hlast.
  - split; [exact Hlast | constructor].
  - rewrite sample_cons. cbn [fst snd].
    destruct (collect_all_without_counters w collector Hlast) as [Hnext Hdata].
    destruct (IH _ Hnext) as [IHlast IHall].
    split; [exact IHlast|].
    destruct (snd (collect_all w collector)) as [data|e]; cbn [successes].
    + constructor; [now apply Hdata | exact IHall].
    + exact IHall.
Qed.

Lemma no_counters_at_startup_zeroes_network_witness :
  exists collector,
    init no_nic_os = Return collector /\
    network_last (fst (sample [healthy_os; healthy_os] collector)) = None /\
    Forall (fun data => network data = network_default)
           (successes (snd (sample [healthy_os; healthy_os] collector))).
Proof.
  eexists. split; [reflexivity|].
  apply (no_counters_at_startup_zeroes_network no_nic_os); reflexivity.
Defined.

(** A preferred sensor group that is present but holds no reading makes the
    temperature absent: the adapter does not go on to the next group, and
    the rest of the CPU record is unaffected. *)
Theorem empty_preferred_group_gives_no_temperature (w : OS) (self : ResourceCollector)
    (temps : dict (list shwtemp.t))
    (p : float) (c : option Z) (f : option scpufreq.t) :
  cpu_percent w = Return p -> cpu_count w = Return c -> cpu_freq w = Return f ->
  sensors_temperatures w = Return temps ->
  dict_get temps "coretemp" = Some [] \/
  (dict_get temps "coretemp" = None /\ dict_get temps "cpu_thermal" = Some []) ->
  collect_cpu_info w self =
  (self, Return (cpu_info.mk (Float p) c (option_map scpufreq.current f)
                   (option_map scpufreq.max f) None)).
Proof.
  intros Hp Hc Hf Ht Hempty.
  unfold collect_cpu_info, collect_cpu_info_body.
  apply try_except_Return.
  rewrite bind_eval, Hp, bind_eval, Hc, bind_eval, Hf.
  rewrite (bind_Return _ _ _ _ _ (read_cpu_temp_rule w self temps Ht)).
  unfold cpu_temperature_rule.
  destruct Hempty as [-> | [-> ->]]; reflexivity.
Qed.

Lemma empty_preferred_group_gives_no_temperature_witness :
  collect_cpu_info
    (with_sensors (Return [("coretemp"%string, []);
                           ("cpu_thermal"%string, [reading 60])]))
    sample_collector =
  (sample_collector,
   Return (cpu_info.mk (Float 12.5) (Some 4) (Some 2400%float) (Some 3600%float) None)).
Proof.
  apply (empty_preferred_group_gives_no_temperature
           (with_sensors (Return [("coretemp"%string, []);
                                  ("cpu_thermal"%string, [reading 60])]))
           sample_collector
           [("coretemp"%string, []); ("cpu_thermal"%string, [reading 60])]
           12.5%float (Some 4) (Some (scpufreq.mk 2400 800 3600)));
    try reflexivity.
  left. reflexivity.
Defined.

Lemma speed_mbps_overflow diff time_delta self :
  gt0 time_delta = true -> float_limit <= Z.abs diff ->
  speed_mbps diff time_delta self = (self, Raise OverflowError).
Proof.
  intros Hgt Hbig. unfold speed_mbps. rewrite Hgt, bind_eval.
  unfold truediv_int_float, float_of_int.
  apply Z.ltb_ge in Hbig. now rewrite Hbig.
Qed.

(** A byte difference too large for a float makes the division raise
    [OverflowError] inside the adapter: the tick reports the zeroed network
    record and the stored counters and time are not replaced. *)
Theorem oversized_difference_degrades_network (w : OS) (self : ResourceCollector)
    (now : float) (cur last : snetio.t) :
  time_time w = Return now -> net_io_counters w = Return (Some cur) ->
  network_last self = Some last ->
  gt0 (now - last_time self) = true ->
  float_limit <= Z.abs (snetio.bytes_sent cur - snetio.bytes_sent last) \/
  float_limit <= Z.abs (snetio.bytes_recv cur - snetio.bytes_recv last) ->
  collect_network_info w self = (self, Return network_default).
Proof.
  intros Hnow Hcur Hlast Hgt Hbig.
  unfold collect_network_info, try_except.
  rewrite collect_network_info_body_cases, Hnow, Hcur, Hlast. cbv zeta.
  unfold value.
  destruct (Z_lt_le_dec (Z.abs (snetio.bytes_sent cur - snetio.bytes_sent last))
              float_limit) as [Hfit|Hsent].
  - destruct Hbig as [Hsent|Hrecv]; [lia|].
    rewrite (speed_mbps_positive _ _ self Hgt Hfit). cbn [snd].
    rewrite (speed_mbps_overflow _ _ self Hgt Hrecv). reflexivity.
  - rewrite (speed_mbps_overflow _ _ self Hgt Hsent). reflexivity.
Qed.

Lemma oversized_difference_degrades_network_witness :
  collect_network_info (with_counters (snetio.mk (2 ^ 1024) 2250000 110 220))
    sample_collector = (sample_collector, Return network_default).
Proof.
  apply (oversized_difference_degrades_network
           (with_counters (snetio.mk (2 ^ 1024) 2250000 110 220)) sample_collector
           101%float (snetio.mk (2 ^ 1024) 2250000 110 220)
           (snetio.mk 1000000 2000000 100 200)); try reflexivity.
  left. vm_compute. discriminate.
Defined.

(** A body that returns has read the clock and the counters and has stored
    them. *)
Lemma collect_network_info_body_Return w self self' info :
  collect_network_info_body w self = (self', Return info) ->
  exists now cur,
    time_time w = Return now /\ net_io_counters w = Return (Some cur) /\
    self' = rate_state_set self (Some cur) now.
Proof.
  rewrite collect_network_info_body_cases.
  destruct (time_time w) as [now|e]; [|discriminate].
  destruct (net_io_counters w) as [[cur|]|e]; [|discriminate|discriminate].
  destruct (network_last self) as [last|]; [|discriminate].
  cbv zeta.
  destruct (value (speed_mbps _ _) self) as [up|e]; [|discriminate].
  destruct (value (speed_mbps _ _) self) as [down|e]; [|discriminate].
  intros [= <- _]. now exists now, cur.
Qed.

Lemma first_adapters_return w self :
  first_adapters_raise_Exception_only w = true ->
  exists cpu_ memory_ disk_,
    value (collect_cpu_info w) self = Return cpu_ /\
    value (collect_memory_info w) self = Return memory_ /\
    value (collect_disk_info w) self = Return disk_.
Proof.
  unfold first_adapters_raise_Exception_only. intros H.
  repeat (apply andb_prop in H; destruct H as [H ?]).
  destruct (collect_cpu_info_policy w self) as (cpu_ & Hcpu & _); try assumption.
  destruct (collect_memory_info_policy w self) as (memory_ & Hmem & _);
    try assumption.
  destruct (collect_disk_info_policy w self) as (disk_ & Hdisk & _);
    try assumption.
  exists cpu_, memory_, disk_. unfold value. now rewrite Hcpu, Hmem, Hdisk.
Qed.

(** An interrupt that hits the GPU query, the last call of a tick, discards
    the snapshot of the tick (nothing is appended) although the network
    adapter has already replaced the stored counters and time by the ones it
    read: the traffic of that interval is attributed to no snapshot. *)
Theorem interrupted_gpu_query_keeps_network_cursor (w : OS)
    (self : ResourceCollector) (e : exn) :
  first_adapters_raise_Exception_only w = true ->
  is_Return (snd (collect_network_info_body w self)) = true ->
  GPU_AVAILABLE w = true -> getGPUs w = Raise e -> is_Exception e = false ->
  exists now cur,
    time_time w = Return now /\ net_io_counters w = Return (Some cur) /\
    collect_all w self = (rate_state_set self (Some cur) now, Raise e).
Proof.
  intros Hfirst Hnet Ha Hg He.
  destruct (first_adapters_return w self Hfirst)
    as (cpu_ & memory_ & disk_ & Hcpu & Hmem & Hdisk).
  destruct (collect_network_info_body w self) as [self1 [info|e1]] eqn:Hbody;
    [|discriminate].
  destruct (collect_network_info_body_Return _ _ _ _ Hbody)
    as (now & cur & Hnow & Hcur & ->).
  exists now, cur. split; [exact Hnow|]. split; [exact Hcur|].
  rewrite collect_all_cases, Hcpu, Hmem, Hdisk.
  unfold collect_network_info at 1.
  rewrite (try_except_Return _ _ _ _ _ _ Hbody).
  unfold value, collect_gpu_info, try_except.
  rewrite Ha. cbn [negb]. rewrite bind_eval, Hg, He. reflexivity.
Qed.

Lemma interrupted_gpu_query_keeps_network_cursor_witness :
  collect_all gpu_interrupted_os sample_collector =
  (rate_state_set sample_collector (Some (snetio.mk 1125000 2250000 110 220)) 101%float,
   Raise KeyboardInterrupt).
Proof.
  destruct (interrupted_gpu_query_keeps_network_cursor gpu_interrupted_os
              sample_collector KeyboardInterrupt)
    as (now & cur & Hnow & Hcur & Hrun);
    [reflexivity | reflexivity | reflexivity | reflexivity | reflexivity |].
  injection Hnow as <-. injection Hcur as <-. exact Hrun.
Defined.

(** A tick whose calls return or raise an [Exception] returns. *)
Lemma collect_all_returns w self :
  os_raises_Exception_only w = true ->
  exists self' data, collect_all w self = (self', Return data).
Proof.
  unfold os_raises_Exception_only. intros H.
  repeat (apply andb_prop in H; destruct H as [H ?]).
  destruct (collect_cpu_info_policy w self) as (cpu_ & Hcpu & _); try assumption.
  destruct (collect_memory_info_policy w self) as (memory_ & Hmem & _);
    try assumption.
  destruct (collect_disk_info_policy w self) as (disk_ & Hdisk & _);
    try assumption.
  destruct (collect_network_info_policy w self) as (self1 & network_ & Hnet & _);
    try assumption.
  destruct (collect_gpu_info_policy w self) as (gpu_ & Hgpu & _); try assumption.
  rewrite collect_all_cases. unfold value.
  rewrite Hcpu, Hmem, Hdisk, Hnet, Hgpu. cbn. eauto.
Qed.

(** What the network adapter contributes to a tick that returns. *)
Lemma collect_all_network w self self' data :
  collect_all w self = (self', Return data) ->
  value (collect_network_info w) self = Return (network data) /\
  network_last self' = network_last (after (collect_network_info w) self) /\
  last_time self' = last_time (after (collect_network_info w) self).
Proof.
  rewrite collect_all_cases. unfold value, after.
  destruct (snd (collect_cpu_info w self)); [|discriminate].
  destruct (snd (collect_memory_info w self)); [|discriminate].
  destruct (snd (collect_disk_info w self)); [|discriminate].
  destruct (collect_network_info w self) as [self1 [network_|e]]; [|discriminate].
  destruct (snd (collect_gpu_info w self)); [|discriminate].
  cbv zeta. intros [= <- <-]. repeat split.
Qed.

(** Two ticks in a row: when the network adapter of the first one did not
    fail, the rates of the second are taken against the counters and the
    time the first one read, whatever the collector held before, and both
    snapshots are appended in order. *)
Theorem consecutive_ticks_chain_the_rates (first second : OS)
    (self : ResourceCollector) (t1 t2 : float) (c1 c2 : snetio.t) :
  os_raises_Exception_only first = true ->
  os_raises_Exception_only second = true ->
  is_Return (snd (collect_network_info_body first self)) = true ->
  time_time first = Return t1 -> net_io_counters first = Return (Some c1) ->
  time_time second = Return t2 -> net_io_counters second = Return (Some c2) ->
  (0 <? t2 - t1)%float = true ->
  Z.abs (snetio.bytes_sent c2 - snetio.bytes_sent c1) < float_limit ->
  Z.abs (snetio.bytes_recv c2 - snetio.bytes_recv c1) < float_limit ->
  exists self1 data1 self2 data2,
    collect_all first self = (self1, Return data1) /\
    collect_all second self1 = (self2, Return data2) /\
    data_history self2 = data_history self ++ [data1; data2] /\
    network_info.upload_speed_mbps (network data2) =
    Float (rate_mbps (snetio.bytes_sent c2 - snetio.bytes_sent c1) (t2 - t1)) /\
    network_info.download_speed_mbps (network data2) =
    Float (rate_mbps (snetio.bytes_recv c2 - snetio.bytes_recv c1) (t2 - t1)).
Proof.
  intros Hos1 Hos2 Hbody Ht1 Hc1 Ht2 Hc2 Hgt Hs Hr.
  destruct (collect_all_returns first self Hos1) as (self1 & data1 & Hrun1).
  destruct (collect_all_returns second self1 Hos2) as (self2 & data2 & Hrun2).
  exists self1, data1, self2, data2.
  split; [exact Hrun1|]. split; [exact Hrun2|].
  destruct (collect_all_Return _ _ _ _ Hrun1) as [Hh1 _].
  destruct (collect_all_Return _ _ _ _ Hrun2) as [Hh2 _].
  split; [now rewrite Hh2, Hh1, <- app_assoc|].
  destruct (collect_all_network _ _ _ _ Hrun1) as (_ & Hlast1 & Htime1).
  destruct (collect_network_info_body first self) as [s [info|e]] eqn:Hb;
    [|discriminate].
  destruct (collect_network_info_body_Return _ _ _ _ Hb)
    as (now & cur & Hnow & Hcur & ->).
  rewrite Ht1 in Hnow. injection Hnow as <-.
  rewrite Hc1 in Hcur. injection Hcur as <-.
  unfold after, collect_network_info in Hlast1, Htime1.
  rewrite (try_except_Return _ _ _ _ _ _ Hb) in Hlast1, Htime1.
  cbn in Hlast1, Htime1.
  destruct (collect_all_network _ _ _ _ Hrun2) as (Hvalue & _ & _).
  destruct (collect_network_info_rates second self1 t2 c2 c1 Ht2 Hc2 Hlast1)
    as [Hpos _].
  rewrite Htime1 in Hpos. unfold gt0 in Hpos.
  unfold value in Hvalue. rewrite (Hpos Hgt Hs Hr) in Hvalue.
  injection Hvalue as <-. split; reflexivity.
Qed.

Lemma consecutive_ticks_chain_the_rates_witness :
  exists self1 data1 self2 data2,
    collect_all same_instant_os sample_collector = (self1, Return data1) /\
    collect_all healthy_os self1 = (self2, Return data2) /\
    data_history self2 = [data1; data2] /\
    network_info.upload_speed_mbps (network data2) = Float 0 /\
    network_info.download_speed_mbps (network data2) = Float 0.
Proof.
  destruct (consecutive_ticks_chain_the_rates same_instant_os healthy_os
              sample_collector 100%float 101%float
              (snetio.mk 1125000 2250000 110 220)
              (snetio.mk 1125000 2250000 110 220))
    as (self1 & data1 & self2 & data2 & H1 & H2 & Hh & Hup & Hdown);
    [reflexivity | reflexivity | reflexivity | reflexivity | reflexivity
    | reflexivity | reflexivity | reflexivity | reflexivity | reflexivity |].
  exists self1, data1, self2, data2.
  split; [exact H1|]. split; [exact H2|]. split; [exact Hh|].
  split; [rewrite Hup | rewrite Hdown]; reflexivity.
Defined.

(** * Further properties of the collection loop *)

(** The percentage a CPU or memory record carries is a float, or the
    integer 0 of the default record: formatting it does not raise. *)
Lemma collect_cpu_info_percent w self info :
  value (collect_cpu_info w) self = Return info ->
  format_f (cpu_info.percent info) = Return tt.
Proof.
  unfold value, collect_cpu_info, collect_cpu_info_body, try_except.
  rewrite bind_eval.
  destruct (cpu_percent w) as [p|e].
  2:{ destruct (is_Exception e); [|discriminate]. now intros [= <-]. }
  rewrite bind_eval.
  destruct (cpu_count w) as [c|e].
  2:{ destruct (is_Exception e); [|discriminate]. now intros [= <-]. }
  rewrite bind_eval.
  destruct (cpu_freq w) as [f|e].
  2:{ destruct (is_Exception e); [|discriminate]. now intros [= <-]. }
  unfold bind. rewrite read_cpu_temp_cases.
  destruct (sensors_temperatures w) as [temps|e].
  - now intros [= <-].
  - destruct (sensor_guard e); [now intros [= <-]|].
    destruct (is_Exception e); [|discriminate]. now intros [= <-].
Qed.

Lemma collect_memory_info_percent w self info :
  value (collect_memory_info w) self = Return info ->
  format_f (memory_info.percent info) = Return tt.
Proof.
  unfold value, collect_memory_info, collect_memory_info_body, try_except.
  rewrite bind_eval.
  destruct (virtual_memory w) as [mem|e].
  2:{ destruct (is_Exception e); [|discriminate]. now intros [= <-]. }
  rewrite bind_eval.
  destruct (swap_memory w) as [swap|e].
  2:{ destruct (is_Exception e); [|discriminate]. now intros [= <-]. }
  now intros [= <-].
Qed.

Lemma collect_all_percents w self self' data :
  collect_all w self = (self', Return data) ->
  format_f (cpu_info.percent (cpu data)) = Return tt /\
  format_f (memory_info.percent (memory data)) = Return tt.
Proof.
  rewrite collect_all_cases.
  destruct (value (collect_cpu_info w) self) as [cpu_|e] eqn:Hcpu; [|discriminate].
  destruct (value (collect_memory_info w) self) as [memory_|e] eqn:Hmem;
    [|discriminate].
  destruct (value (collect_disk_info w) self); [|discriminate].
  destruct (collect_network_info w self) as [self1 [network_|e]]; [|discriminate].
  destruct (value (collect_gpu_info w) self); [|discriminate].
  cbv zeta. intros [= _ <-]. cbn [cpu memory].
  split; [eapply collect_cpu_info_percent | eapply collect_memory_info_percent];
    eassumption.
Qed.

(** Once the bar of the first tick can be drawn, so can the bar of every
    scheduled tick. *)
Lemma bar_drawn_at_every_tick total_iterations iteration :
  bar_can_be_drawn total_iterations = true ->
  1 <= iteration <= total_iterations ->
  exists bar,
    print_progress_bar iteration total_iterations 40 [block] = Return bar.
Proof.
  unfold bar_can_be_drawn, print_progress_bar, truediv_int_float.
  intros Hfirst Hiter.
  assert (Hfit : Z.abs total_iterations < float_limit).
  { unfold float_of_int in Hfirst.
    destruct (Z.ltb_spec (Z.abs total_iterations) float_limit); [assumption|].
    discriminate. }
  destruct (float_of_int total_iterations) as [total_|e]; [|discriminate].
  assert (Hnonzero : (total_ =? 0)%float = false).
  { destruct (float_of_int 1); [|discriminate].
    destruct (total_ =? 0)%float; [discriminate | reflexivity]. }
  unfold float_of_int.
  replace (Z.abs iteration <? float_limit) with true
    by (symmetry; apply Z.ltb_lt; lia).
  rewrite Hnonzero. eauto.
Qed.

Lemma loop_body_completes env total_iterations i self :
  bar_can_be_drawn total_iterations = true ->
  tick_completes env total_iterations i ->
  exists self' data,
    collect_all (os (env i)) self = (self', Return data) /\
    loop_body env total_iterations i self = (self', Return tt).
Proof.
  intros Hbar (Hi & Hos & Hsleep).
  destruct (collect_all_returns _ self Hos) as (self' & data & Hrun).
  exists self', data. split; [exact Hrun|].
  rewrite (loop_body_after_tick _ _ _ _ _ _ Hrun).
  destruct (collect_all_percents _ _ _ _ Hrun) as [-> ->].
  destruct (bar_drawn_at_every_tick total_iterations (Z.of_nat i + 1) Hbar)
    as [bar ->]; [lia|].
  destruct (Z.ltb_spec (Z.of_nat i) (total_iterations - 1)) as [Hlt|_];
    [|reflexivity].
  now rewrite (Hsleep Hlt).
Qed.

Lemma ticks_cons env i k :
  ticks env i (S k) = os (env i) :: ticks env (S i) k.
Proof. reflexivity. Qed.

(** [k] iterations that run to their end are [k] successful ticks: the loop
    goes on from the collector they leave. *)
Lemma collection_loop_prefix env total_iterations k :
  bar_can_be_drawn total_iterations = true ->
  forall n i self,
    (forall j, (i <= j < i + k)%nat -> tick_completes env total_iterations j) ->
    collection_loop env total_iterations (k + n) i self =
    collection_loop env total_iterations n (i + k)
      (fst (sample (ticks env i k) self)) /\
    map timestamp (successes (snd (sample (ticks env i k) self))) =
    map datetime_now (ticks env i k).
Proof.
  intros Hbar. induction k as [|k IH]; intros n i self Hgood.
  - cbn. now rewrite Nat.add_0_r.
  - destruct (loop_body_completes env total_iterations i self Hbar)
      as (self' & data & Hrun & Hbody); [apply Hgood; lia|].
    destruct (IH n (S i) self') as [Hloop Hstamps]; [intros j Hj; apply Hgood; lia|].
    rewrite ticks_cons, sample_cons, Hrun. cbn [fst snd successes map].
    cbn [Nat.add collection_loop]. rewrite Hbody.
    replace (i + S k)%nat with (S i + k)%nat by lia.
    split; [exact Hloop|].
    destruct (collect_all_Return _ _ _ _ Hrun) as [_ ->]. now rewrite Hstamps.
Qed.

Lemma monitor_system_loop duration interval startup env collector :
  init startup = Return collector -> interval <> 0 ->
  monitor_system duration interval startup env =
  match collection_loop env (duration * 60 / interval)
          (Z.to_nat (duration * 60 / interval)) 0 collector with
  | (collector', LoopReturn) => Aborted collector'
  | (_, LoopRaise e) => Uncaught e
  | (collector', _) =>
      match data_history collector' with
      | [] => EmptyHistory
      | a :: history => Finalized (a :: history)
      end
  end.
Proof.
  intros Hinit Hne. unfold monitor_system. rewrite Hinit.
  apply Z.eqb_neq in Hne. rewrite Hne.
  destruct (collection_loop _ _ _ _ _) as [collector' [| | |e]]; try reflexivity;
    unfold value; rewrite get_history_run; cbn [snd];
    destruct (data_history collector'); reflexivity.
Qed.

Lemma prefix_history env i k self :
  data_history self = [] ->
  map timestamp (successes (snd (sample (ticks env i k) self))) =
  map datetime_now (ticks env i k) ->
  map timestamp (data_history (fst (sample (ticks env i k) self))) =
  map (fun j => datetime_now (os (env j))) (seq i k) /\
  List.length (data_history (fst (sample (ticks env i k) self))) = k.
Proof.
  intros Hempty Hstamps. rewrite sample_history, Hempty. cbn [app].
  assert (Hmap : map timestamp (successes (snd (sample (ticks env i k) self))) =
                 map (fun j => datetime_now (os (env j))) (seq i k)).
  { rewrite Hstamps. unfold ticks. now rewrite map_map. }
  split; [exact Hmap|].
  apply (f_equal (@List.length Z)) in Hmap.
  now rewrite !length_map, length_seq in Hmap.
Qed.



Lemma collect_all_cpu_interrupted w self e :
  cpu_percent w = Raise e -> is_Exception e = false ->
  collect_all w self = (self, Raise e).
Proof.
  intros Hp He. rewrite collect_all_cases.
  unfold value, collect_cpu_info, collect_cpu_info_body, try_except.
  now rewrite bind_eval, Hp, He.
Qed.

(** The user interrupts the wait that follows tick number [k], every tick
    up to it having run to its end with its progress bar drawn.  After the
    first tick ([k = 0]) the run stops at once with its single snapshot
    unused; after any later tick the [k + 1] snapshots are handed to the
    graphs and the report. *)
Theorem interrupted_wait_outcome (duration interval : Z)
    (startup : OS) (env : nat -> TickEnv) (collector : ResourceCollector) (k : nat) :
  init startup = Return collector -> 0 < interval ->
  bar_can_be_drawn (duration * 60 / interval) = true ->
  Z.of_nat k < duration * 60 / interval - 1 ->
  (forall j, (j <= k)%nat -> os_raises_Exception_only (os (env j)) = true) ->
  (forall j, (j < k)%nat -> sleep (env j) = Return tt) ->
  sleep (env k) = Raise KeyboardInterrupt ->
  exists collector',
    List.length (data_history collector') = S k /\
    map timestamp (data_history collector') =
    map (fun j => datetime_now (os (env j))) (seq 0 (S k)) /\
    monitor_system duration interval startup env =
    match k with
    | O => Aborted collector'
    | S _ => Finalized (data_history collector')
    end.
Proof.
  intros Hinit Hpos Hbar Hk Hos Hsleep Hint.
  set (total := duration * 60 / interval) in *.
  rewrite (monitor_system_loop _ _ _ _ _ Hinit) by lia. fold total.
  replace (Z.to_nat total) with (k + S (Z.to_nat total - S k))%nat by lia.
  destruct (collection_loop_prefix env total k Hbar
              (S (Z.to_nat total - S k)) 0 collector) as [Hloop Hstamps].
  { intros j Hj. split; [lia|]. split; [apply Hos | intros; apply Hsleep]; lia. }
  rewrite Hloop. cbn [Nat.add collection_loop].
  destruct (init_history _ _ Hinit) as [Hempty _].
  destruct (prefix_history env 0 k collector Hempty Hstamps) as [Hmap Hlen].
  set (reached := fst (sample (ticks env 0 k) collector)) in *.
  destruct (collect_all_returns (os (env k)) reached) as (collector' & data & Hrun);
    [apply Hos; lia|].
  destruct (collect_all_Return _ _ _ _ Hrun) as [Hhist Hstamp].
  assert (Hbody : loop_body env total k reached = (collector', Raise KeyboardInterrupt)).
  { rewrite (loop_body_after_tick _ _ _ _ _ _ Hrun).
    destruct (collect_all_percents _ _ _ _ Hrun) as [-> ->].
    destruct (bar_drawn_at_every_tick total (Z.of_nat k + 1) Hbar) as [bar ->];
      [lia|].
    apply Z.ltb_lt in Hk. now rewrite Hk, Hint. }
  rewrite Hbody. exists collector'.
  split; [rewrite Hhist, length_app, Hlen; cbn; lia|].
  split.
  { rewrite Hhist, map_app, Hmap, seq_S, map_app. cbn. now rewrite Hstamp. }
  destruct k as [|k]; cbn [loop_handler Z.of_nat Z.ltb Z.compare]; [reflexivity|].
  rewrite Hhist. destruct (data_history reached); reflexivity.
Qed.

Lemma interrupted_wait_outcome_witness :
  (exists collector',
     List.length (data_history collector') = 1%nat /\
     monitor_system 1 20 healthy_os (wait_interrupted 0) = Aborted collector') /\
  (exists history,
     List.length history = 2%nat /\
     map timestamp history = [0; 20000000] /\
     monitor_system 1 20 healthy_os (wait_interrupted 1) = Finalized history).
Proof.
  split.
  - destruct (interrupted_wait_outcome 1 20 healthy_os (wait_interrupted 0)
                {| data_history := [];
                   network_last := Some (snetio.mk 1125000 2250000 110 220);
                   last_time := 101 |} 0)
      as (collector' & Hlen & _ & Hrun);
      [reflexivity | lia | reflexivity | reflexivity | reflexivity | lia
      | reflexivity |].
    exists collector'. split; [exact Hlen | exact Hrun].
  - destruct (interrupted_wait_outcome 1 20 healthy_os (wait_interrupted 1)
                {| data_history := [];
                   network_last := Some (snetio.mk 1125000 2250000 110 220);
                   last_time := 101 |} 1)
      as (collector' & Hlen & Hstamps & Hrun);
      [reflexivity | lia | reflexivity | reflexivity | reflexivity | | reflexivity |].
    { intros j Hj. assert (j = 0%nat) by lia. subst j. reflexivity. }
    exists (data_history collector').
    split; [exact Hlen|]. split; [exact Hstamps | exact Hrun].
Defined.

(** The user interrupts the CPU measurement of tick number [k], every
    earlier tick having run to its end with its progress bar drawn.  The
    interrupted tick appends nothing.  On the first tick ([k = 0]) the run
    stops with an empty history; on any later tick the [k] snapshots
    collected so far are handed to the graphs and the report. *)
Theorem interrupted_tick_outcome (duration interval : Z)
    (startup : OS) (env : nat -> TickEnv) (collector : ResourceCollector) (k : nat) :
  init startup = Return collector -> 0 < interval ->
  bar_can_be_drawn (duration * 60 / interval) = true ->
  Z.of_nat k < duration * 60 / interval ->
  (forall j, (j < k)%nat -> os_raises_Exception_only (os (env j)) = true) ->
  (forall j, (j < k)%nat -> sleep (env j) = Return tt) ->
  cpu_percent (os (env k)) = Raise KeyboardInterrupt ->
  exists collector',
    List.length (data_history collector') = k /\
    map timestamp (data_history collector') =
    map (fun j => datetime_now (os (env j))) (seq 0 k) /\
    monitor_system duration interval startup env =
    match k with
    | O => Aborted collector'
    | S _ => Finalized (data_history collector')
    end.
Proof.
  intros Hinit Hpos Hbar Hk Hos Hsleep Hint.
  set (total := duration * 60 / interval) in *.
  rewrite (monitor_system_loop _ _ _ _ _ Hinit) by lia. fold total.
  replace (Z.to_nat total) with (k + S (Z.to_nat total - S k))%nat by lia.
  destruct (collection_loop_prefix env total k Hbar
              (S (Z.to_nat total - S k)) 0 collector) as [Hloop Hstamps].
  { intros j Hj. split; [lia|]. split; [apply Hos | intros; apply Hsleep]; lia. }
  rewrite Hloop. cbn [Nat.add collection_loop].
  destruct (init_history _ _ Hinit) as [Hempty _].
  destruct (prefix_history env 0 k collector Hempty Hstamps) as [Hmap Hlen].
  set (reached := fst (sample (ticks env 0 k) collector)) in *.
  assert (Hbody : loop_body env total k reached = (reached, Raise KeyboardInterrupt)).
  { unfold loop_body.
    apply bind_Raise. now apply collect_all_cpu_interrupted. }
  rewrite Hbody. exists reached.
  split; [exact Hlen|]. split; [exact Hmap|].
  destruct k as [|k]; cbn [loop_handler Z.of_nat Z.ltb Z.compare]; [reflexivity|].
  destruct (data_history reached); [discriminate | reflexivity].
Qed.

Lemma interrupted_tick_outcome_witness :
  (exists collector',
     data_history collector' = [] /\
     monitor_system 1 20 healthy_os (interrupted_during 0) = Aborted collector') /\
  (exists history,
     List.length history = 2%nat /\
     monitor_system 1 20 healthy_os (interrupted_during 2) = Finalized history).
Proof.
  split.
  - destruct (interrupted_tick_outcome 1 20 healthy_os (interrupted_during 0)
                {| data_history := [];
                   network_last := Some (snetio.mk 1125000 2250000 110 220);
                   last_time := 101 |} 0)
      as (collector' & Hlen & _ & Hrun);
      [reflexivity | lia | reflexivity | reflexivity | lia | lia | reflexivity |].
    exists collector'. split; [|exact Hrun].
    now destruct (data_history collector').
  - destruct (interrupted_tick_outcome 1 20 healthy_os (interrupted_during 2)
                {| data_history := [];
                   network_last := Some (snetio.mk 1125000 2250000 110 220);
                   last_time := 101 |} 2)
      as (collector' & Hlen & _ & Hrun);
      [reflexivity | lia | reflexivity | reflexivity | | | reflexivity |].
    { intros j Hj. destruct j as [|[|j]]; [reflexivity | reflexivity | lia]. }
    { intros j Hj. reflexivity. }
    exists (data_history collector'). split; [exact Hlen | exact Hrun].
Defined.

Lemma loop_body_Return env total_iterations i self self' u :
  loop_body env total_iterations i self = (self', Return u) ->
  exists data, collect_all (os (env i)) self = (self', Return data).
Proof.
  destruct (collect_all (os (env i)) self) as [self1 [data|e]] eqn:Hrun.
  - rewrite (loop_body_after_tick _ _ _ _ _ _ Hrun).
    intros [= <- _]. now exists data.
  - unfold loop_body. rewrite (bind_Raise _ _ _ _ _ Hrun). discriminate.
Qed.

(** The loop only ever extends the history it starts from. *)
Lemma collection_loop_extends env total_iterations remaining i self :
  exists more,
    data_history (fst (collection_loop env total_iterations remaining i self)) =
    data_history self ++ more.
Proof.
  destruct (collection_loop_sample env total_iterations remaining i self)
    as (k & _ & ->).
  rewrite sample_history. eauto.
Qed.

Lemma loop_handler_first_iteration e :
  loop_handler e 0 = LoopReturn \/ loop_handler e 0 = LoopRaise e.
Proof. destruct e; cbn; auto. Qed.

(** Once [main] has let the arguments through, at least one tick is
    scheduled (the interval is positive and no longer than the duration), and
    the run never ends on the empty-history exit that follows the loop:
    either the first tick appended a snapshot, or its failure has already
    ended the run inside the loop. *)
Theorem main_never_meets_an_empty_history (duration interval : Z)
    (startup : OS) (env : nat -> TickEnv) (r : run_end) :
  main duration interval startup env = Ran r ->
  0 < interval /\ 1 <= duration * 60 / interval /\ r <> EmptyHistory.
Proof.
  unfold main.
  destruct (duration <=? 0) eqn:Hd; [discriminate|].
  destruct (interval <=? 0) eqn:Hi; [discriminate|].
  destruct (interval >? duration * 60) eqn:Hle; [discriminate|].
  apply Z.leb_gt in Hd, Hi. rewrite Z.gtb_ltb in Hle. apply Z.ltb_ge in Hle.
  intros Hmain.
  assert (Htotal : 1 <= duration * 60 / interval)
    by (apply Z.div_le_lower_bound; lia).
  split; [exact Hi|]. split; [exact Htotal|].
  destruct (init startup) as [collector|e] eqn:Hinit.
  2:{ unfold monitor_system in Hmain. rewrite Hinit in Hmain.
      destruct (is_Exception e); discriminate. }
  rewrite (monitor_system_loop _ _ _ _ _ Hinit) in Hmain by lia.
  destruct (init_history _ _ Hinit) as [Hempty _].
  destruct (Z.to_nat (duration * 60 / interval)) as [|n] eqn:Hn; [lia|].
  cbn [collection_loop] in Hmain.
  destruct (loop_body env (duration * 60 / interval) 0 collector)
    as [collector' [u|e]] eqn:Hbody.
  - destruct (loop_body_Return _ _ _ _ _ _ Hbody) as (data & Hrun).
    destruct (collect_all_Return _ _ _ _ Hrun) as [Hhist _].
    destruct (collection_loop_extends env (duration * 60 / interval) n 1 collector')
      as (more & Hmore).
    rewrite Hhist, Hempty in Hmore. cbn [app] in Hmore.
    destruct (collection_loop env (duration * 60 / interval) n 1 collector')
      as [final [| | |e]]; cbn [fst] in Hmore; rewrite ?Hmore in Hmain;
      try (injection Hmain as <-; discriminate).
    destruct (is_Exception e); discriminate.
  - cbn [Z.of_nat] in Hmain.
    destruct (loop_handler_first_iteration e) as [H|H]; rewrite H in Hmain.
    + injection Hmain as <-. discriminate.
    + destruct (is_Exception e); discriminate.
Qed.

Lemma main_never_meets_an_empty_history_witness :
  exists history,
    main 1 20 healthy_os always_healthy = Ran (Finalized history) /\
    1 <= 1 * 60 / 20.
Proof.
  eexists. split; [reflexivity|].
  apply (main_never_meets_an_empty_history 1 20 healthy_os always_healthy
           (Finalized (data_history
                         (fst (sample (ticks always_healthy 0 3)
                                 {| data_history := [];
                                    network_last :=
                                      Some (snetio.mk 1125000 2250000 110 220);
                                    last_time := 101 |}))))).
  reflexivity.
Defined.

(** The constructor makes its two calls outside any [try]: a failure that
    an adapter would absorb during a tick is fatal at start-up.  No tick is
    attempted, and [main] turns the [Exception] into exit status 1. *)
Theorem startup_failure_is_fatal (duration interval : Z)
    (startup : OS) (env : nat -> TickEnv) (e : exn) :
  0 < duration -> 0 < interval <= duration * 60 ->
  net_io_counters startup = Raise e \/
  (is_Return (net_io_counters startup) = true /\ time_time startup = Raise e) ->
  monitor_system duration interval startup env = Uncaught e /\
  main duration interval startup env =
  if is_Exception e then SysExit 1 else Escapes e.
Proof.
  intros Hd Hi Hfail.
  assert (Hinit : init startup = Raise e).
  { unfold init. destruct Hfail as [-> | [Hret ->]]; [reflexivity|].
    destruct (net_io_counters startup); [reflexivity | discriminate]. }
  assert (Hrun : monitor_system duration interval startup env = Uncaught e).
  { unfold monitor_system. now rewrite Hinit. }
  split; [exact Hrun|].
  unfold main. rewrite Hrun.
  destruct (Z.leb_spec duration 0); [lia|].
  destruct (Z.leb_spec interval 0); [lia|].
  rewrite Z.gtb_ltb. destruct (Z.ltb_spec (duration * 60) interval); [lia|].
  reflexivity.
Qed.

Lemma startup_failure_is_fatal_witness :
  monitor_system 1 20 failing_os always_healthy = Uncaught OSError /\
  main 1 20 failing_os always_healthy = SysExit 1.
Proof.
  apply (startup_failure_is_fatal 1 20 failing_os always_healthy OSError);
    [lia | lia | left; reflexivity].
Defined.

(** * The progress bar *)

Lemma str_repeat_char (c : N) (n : Z) :
  str_repeat [c] n = repeat c (Z.to_nat n).
Proof.
  unfold str_repeat. induction (Z.to_nat n) as [|k IH]; cbn; [reflexivity|].
  now rewrite IH.
Qed.

(** Whenever [print_progress_bar] gets as far as drawing (the percentage did
    not raise), for a fill of one character and [0 <= iteration <= total],
    the bar is exactly [length] characters wide: [length * iteration //
    total] fill characters followed by dashes, and it is completely filled
    exactly on the last iteration (or when it has no width at all). *)
Theorem progress_bar_width (iteration total length : Z) (c : N) (bar : str) :
  print_progress_bar iteration total length [c] = Return bar ->
  0 < total -> 0 <= iteration <= total -> 0 <= length ->
  0 <= length * iteration / total <= length /\
  bar = repeat c (Z.to_nat (length * iteration / total)) ++
        repeat dash (Z.to_nat (length - length * iteration / total)) /\
  List.length bar = Z.to_nat length /\
  (length * iteration / total = length <-> iteration = total \/ length = 0).
Proof.
  intros Hrun Htotal Hiter Hlen.
  assert (Hlo : 0 <= length * iteration / total)
    by (apply Z.div_pos; nia).
  assert (Hhi : length * iteration / total <= length)
    by (apply Z.div_le_upper_bound; nia).
  split; [lia|].
  assert (Hbar : bar = repeat c (Z.to_nat (length * iteration / total)) ++
                       repeat dash (Z.to_nat (length - length * iteration / total))).
  { unfold print_progress_bar in Hrun.
    destruct (float_of_int total) as [total_|e]; [|discriminate].
    destruct (truediv_int_float iteration total_) as [q|e]; [|discriminate].
    cbv zeta in Hrun. injection Hrun as <-. now rewrite !str_repeat_char. }
  split; [exact Hbar|]. split.
  - rewrite Hbar, length_app, !repeat_length. lia.
  - split.
    + intros Hfull. destruct (Z.eq_dec length 0) as [|Hne]; [now right|left].
      pose proof (Z.mul_div_le (length * iteration) total Htotal) as Hmul.
      rewrite Hfull in Hmul. nia.
    + intros [-> | ->].
      * now rewrite Z.div_mul by lia.
      * now rewrite Z.mul_0_l, Z.div_0_l by lia.
Qed.

Lemma progress_bar_width_witness :
  exists bar,
    print_progress_bar 1 3 40 [9608%N] = Return bar /\
    bar = repeat 9608%N 13 ++ repeat dash 27 /\
    List.length bar = 40%nat.
Proof.
  eexists. split; [vm_compute; reflexivity|].
  destruct (progress_bar_width 1 3 40 9608%N
              (repeat 9608%N 13 ++ repeat dash 27))
    as (_ & Hbar & Hlen & _); [vm_compute; reflexivity | lia | lia | lia |].
  split; [reflexivity | exact Hlen].
Defined.

(** * The series handed to the figures *)

Import GraphGenerator.

Lemma present_temperatures_length data_history :
  (List.length (present_temperatures data_history) <= List.length data_history)%nat.
Proof.
  induction data_history as [|entry rest IH]; cbn; [lia|].
  destruct (cpu_info.temperature (cpu entry)); cbn; lia.
Qed.

Lemma present_temperatures_all data_history :
  Forall (fun entry => cpu_info.temperature (cpu entry) <> None) data_history ->
  map Some (present_temperatures data_history) =
  map (fun entry => cpu_info.temperature (cpu entry)) data_history.
Proof.
  induction 1 as [|entry rest Hentry _ IH]; cbn; [reflexivity|].
  destruct (cpu_info.temperature (cpu entry)); [|congruence].
  cbn. now rewrite IH.
Qed.

Lemma present_temperatures_missing data_history :
  Exists (fun entry => cpu_info.temperature (cpu entry) = None) data_history ->
  (List.length (present_temperatures data_history) < List.length data_history)%nat.
Proof.
  induction 1 as [entry rest Hentry | entry rest _ IH]; cbn.
  - rewrite Hentry. pose proof (present_temperatures_length rest). lia.
  - destruct (cpu_info.temperature (cpu entry)); cbn; lia.
Qed.

(** The temperature panel of the CPU figure is all or nothing: the curve is
    drawn, one point per snapshot, exactly when the history is not empty and
    every snapshot has a temperature; a single snapshot without one (or an
    empty history) replaces the whole panel by the "not available" text. *)
Theorem cpu_temperature_panel_all_or_nothing (data_history : list Snapshot) :
  (data_history <> [] ->
   Forall (fun entry => cpu_info.temperature (cpu entry) <> None) data_history ->
   exists y,
     temperature_panel_ (generate_cpu_graph data_history) =
     TemperaturePlot (map timestamp data_history) y /\
     map Some y = map (fun entry => cpu_info.temperature (cpu entry)) data_history) /\
  (data_history = [] \/
   Exists (fun entry => cpu_info.temperature (cpu entry) = None) data_history ->
   temperature_panel_ (generate_cpu_graph data_history) = TemperatureNotAvailable).
Proof.
  unfold generate_cpu_graph, _extract_timestamps. cbn [temperature_panel_].
  split.
  - intros Hne Hall.
    pose proof (present_temperatures_all _ Hall) as Hmap.
    exists (present_temperatures data_history). split; [|exact Hmap].
    assert (Hlen : List.length (present_temperatures data_history) =
                   List.length data_history).
    { apply (f_equal (@List.length _)) in Hmap. now rewrite !length_map in Hmap. }
    rewrite length_map, Hlen, Nat.eqb_refl.
    destruct (present_temperatures data_history); [|reflexivity].
    destruct data_history; [congruence | discriminate].
  - intros [-> | Hmissing]; [reflexivity|].
    apply present_temperatures_missing in Hmissing.
    rewrite length_map.
    destruct (Nat.eqb_spec (List.length (present_temperatures data_history))
                (List.length data_history)) as [Heq|_]; [lia|].
    now rewrite andb_false_r.
Qed.

Lemma cpu_temperature_panel_all_or_nothing_witness :
  temperature_panel_ (generate_cpu_graph [full_snapshot; one_gpu_snapshot]) =
  TemperaturePlot [0; 40000000] [71%float; 70%float] /\
  temperature_panel_
    (generate_cpu_graph [full_snapshot; degraded_snapshot 20000000; one_gpu_snapshot]) =
  TemperatureNotAvailable.
Proof.
  split.
  - destruct (cpu_temperature_panel_all_or_nothing [full_snapshot; one_gpu_snapshot])
      as [Hplot _].
    destruct Hplot as (y & Hpanel & Hy);
      [discriminate | repeat constructor; discriminate |].
    rewrite Hpanel. destruct y as [|a [|b [|? ?]]]; try discriminate.
    cbn in Hy. now injection Hy as <- <-.
  - destruct (cpu_temperature_panel_all_or_nothing
                [full_snapshot; degraded_snapshot 20000000; one_gpu_snapshot])
      as [_ Hnone].
    apply Hnone. right. apply Exists_cons_tl, Exists_cons_hd. reflexivity.
Defined.

Lemma gpu_entries_missing data_history :
  Exists (fun entry => gpu entry = None) data_history ->
  (gpu_entries data_history < List.length data_history)%nat.
Proof.
  unfold gpu_entries.
  induction 1 as [entry rest Hentry | entry rest _ IH]; cbn.
  - unfold has_gpu_data at 1. rewrite Hentry.
    pose proof (filter_length_le has_gpu_data rest). lia.
  - destruct (has_gpu_data entry); cbn; lia.
Qed.

Lemma gpu_column_length {A} (field : gpu_entry.t -> A) gpu_id data_history column :
  gpu_column field gpu_id data_history = Return column ->
  List.length column = gpu_entries data_history.
Proof.
  unfold gpu_entries. revert column.
  induction data_history as [|entry rest IH]; intros column; cbn.
  - now intros [= <-].
  - unfold has_gpu_data at 1. destruct (gpu entry) as [info|]; [|apply IH].
    destruct (list_getitem (gpu_info.gpus info) gpu_id) as [device|e]; [|discriminate].
    destruct (gpu_column field gpu_id rest) as [rest_column|e]; [|discriminate].
    intros [= <-]. cbn. now rewrite (IH rest_column).
Qed.

Lemma list_getitem_in_range {A} (l : list A) i :
  (i < List.length l)%nat -> exists a, list_getitem l i = Return a.
Proof.
  intros Hi. unfold list_getitem.
  destruct (nth_error l i) as [a|] eqn:Hnth; [eauto|].
  apply nth_error_None in Hnth. lia.
Qed.

Lemma list_getitem_out_of_range {A} (l : list A) i :
  (List.length l <= i)%nat -> list_getitem l i = Raise IndexError.
Proof.
  intros Hi. unfold list_getitem.
  apply nth_error_None in Hi. now rewrite Hi.
Qed.

Lemma gpu_column_returns {A} (field : gpu_entry.t -> A) gpu_id data_history :
  Forall (fun entry => gpu entry = None \/ (gpu_id < device_count entry)%nat)
         data_history ->
  exists column, gpu_column field gpu_id data_history = Return column.
Proof.
  induction 1 as [|entry rest Hentry _ [column IH]]; cbn; [eauto|].
  unfold device_count in Hentry.
  destruct (gpu entry) as [info|]; [|eauto].
  destruct Hentry as [|Hid]; [discriminate|].
  destruct (list_getitem_in_range _ _ Hid) as [device ->].
  rewrite IH. eauto.
Qed.

Lemma gpu_column_Raise {A} (field : gpu_entry.t -> A) gpu_id data_history e :
  gpu_column field gpu_id data_history = Raise e -> e = IndexError.
Proof.
  induction data_history as [|entry rest IH]; cbn; [discriminate|].
  destruct (gpu entry) as [info|]; [|exact IH].
  unfold list_getitem.
  destruct (nth_error (gpu_info.gpus info) gpu_id); [|now intros [= <-]].
  destruct (gpu_column field gpu_id rest) as [column|e']; [discriminate|].
  intros [= <-]. now apply IH.
Qed.

Lemma gpu_column_short {A} (field : gpu_entry.t -> A) gpu_id data_history :
  Exists (fun entry => gpu entry <> None /\ (device_count entry <= gpu_id)%nat)
         data_history ->
  gpu_column field gpu_id data_history = Raise IndexError.
Proof.
  induction 1 as [entry rest [Hsome Hshort] | entry rest _ IH]; cbn.
  - unfold device_count in Hshort.
    destruct (gpu entry) as [info|]; [|congruence].
    now rewrite (list_getitem_out_of_range _ _ Hshort).
  - destruct (gpu entry) as [info|]; [|exact IH].
    destruct (list_getitem (gpu_info.gpus info) gpu_id) as [device|e] eqn:Hget.
    + now rewrite IH.
    + unfold list_getitem in Hget.
      destruct (nth_error (gpu_info.gpus info) gpu_id); [discriminate|].
      now injection Hget as <-.
Qed.

Lemma first_gpu_name_returns first rest info gpu_id :
  gpu first = Some info -> (gpu_id < List.length (gpu_info.gpus info))%nat ->
  exists name_, first_gpu_name (first :: rest) gpu_id = Return name_.
Proof.
  intros Hfirst Hid. unfold first_gpu_name. cbn [list_getitem nth_error].
  rewrite Hfirst. destruct (list_getitem_in_range _ _ Hid) as [device ->]. eauto.
Qed.

Lemma first_gpu_name_Raise first rest info gpu_id e :
  gpu first = Some info ->
  first_gpu_name (first :: rest) gpu_id = Raise e -> e = IndexError.
Proof.
  intros Hfirst. unfold first_gpu_name. cbn [list_getitem nth_error].
  rewrite Hfirst. unfold list_getitem.
  destruct (nth_error (gpu_info.gpus info) gpu_id); [discriminate|].
  now intros [= <-].
Qed.

Lemma gpu_entries_all data_history :
  Forall (fun entry => gpu entry <> None) data_history ->
  gpu_entries data_history = List.length data_history.
Proof.
  unfold gpu_entries. induction 1 as [|entry rest Hentry _ IH]; cbn; [reflexivity|].
  unfold has_gpu_data at 1. destruct (gpu entry); [|congruence].
  cbn. now rewrite IH.
Qed.

Lemma plot_same_length {A} (x : list Z) (y : list A) :
  List.length y = List.length x -> plot x y = Return tt.
Proof. intros H. unfold plot. now rewrite H, Nat.eqb_refl. Qed.

Lemma plot_other_length {A} (x : list Z) (y : list A) :
  List.length y <> List.length x -> plot x y = Raise ValueError.
Proof.
  intros H. unfold plot.
  destruct (Nat.eqb_spec (List.length x) (List.length y)); [congruence | reflexivity].
Qed.

(** The loop over the devices, when every snapshot has GPU data with a
    device for each identifier: every curve is as long as the time axis. *)
Lemma plot_gpus_returns first rest info gpu_ids :
  gpu first = Some info ->
  Forall (fun entry => gpu entry <> None) (first :: rest) ->
  Forall (fun gpu_id =>
            (gpu_id < List.length (gpu_info.gpus info))%nat /\
            Forall (fun entry => gpu entry = None \/ (gpu_id < device_count entry)%nat)
                   (first :: rest)) gpu_ids ->
  exists series,
    plot_gpus (first :: rest) (map timestamp (first :: rest)) gpu_ids = Return series /\
    map series_id series = gpu_ids /\
    Forall (fun s => List.length (gpu_load s) = List.length (first :: rest) /\
                     List.length (gpu_temp s) = List.length (first :: rest)) series.
Proof.
  intros Hfirst Hdata.
  induction 1 as [|gpu_id ids [Hid Hall] _ (series & IH & Hids & Hlens)].
  - exists []. repeat split; constructor.
  - cbn [plot_gpus].
    destruct (gpu_column_returns gpu_entry.load gpu_id _ Hall) as [load_ Hload].
    destruct (gpu_column_returns gpu_entry.temperature gpu_id _ Hall) as [temp_ Htemp].
    destruct (first_gpu_name_returns first rest info gpu_id Hfirst Hid) as [name_ Hname].
    assert (Hl : List.length load_ = List.length (first :: rest)).
    { rewrite (gpu_column_length _ _ _ _ Hload). now apply gpu_entries_all. }
    assert (Ht : List.length temp_ = List.length (first :: rest)).
    { rewrite (gpu_column_length _ _ _ _ Htemp). now apply gpu_entries_all. }
    rewrite Hload, Htemp, Hname.
    rewrite (plot_same_length _ load_) by now rewrite length_map.
    rewrite (plot_same_length _ temp_) by now rewrite length_map.
    rewrite IH.
    eexists. split; [reflexivity|]. split; [cbn; now rewrite Hids|].
    constructor; [|exact Hlens]. cbn [gpu_load gpu_temp]. now split.
Qed.

(** With GPU data in every snapshot no plot is refused: the loop can only
    fail on a missing device. *)
Lemma plot_gpus_Raise first rest info gpu_ids e :
  gpu first = Some info ->
  Forall (fun entry => gpu entry <> None) (first :: rest) ->
  plot_gpus (first :: rest) (map timestamp (first :: rest)) gpu_ids = Raise e ->
  e = IndexError.
Proof.
  intros Hfirst Hdata.
  induction gpu_ids as [|gpu_id ids IH]; cbn [plot_gpus]; [discriminate|].
  destruct (gpu_column gpu_entry.load gpu_id (first :: rest)) as [load_|e1] eqn:Hload.
  2:{ intros [= <-]. now apply gpu_column_Raise in Hload. }
  destruct (gpu_column gpu_entry.temperature gpu_id (first :: rest))
    as [temp_|e1] eqn:Htemp.
  2:{ intros [= <-]. now apply gpu_column_Raise in Htemp. }
  destruct (first_gpu_name (first :: rest) gpu_id) as [name_|e1] eqn:Hname.
  2:{ intros [= <-]. now apply (first_gpu_name_Raise first rest info gpu_id). }
  rewrite (plot_same_length _ load_)
    by (rewrite length_map, (gpu_column_length _ _ _ _ Hload);
        now apply gpu_entries_all).
  rewrite (plot_same_length _ temp_)
    by (rewrite length_map, (gpu_column_length _ _ _ _ Htemp);
        now apply gpu_entries_all).
  destruct (plot_gpus (first :: rest) _ ids) as [series|e1]; [discriminate|].
  intros [= <-]. now apply IH.
Qed.

Lemma plot_gpus_short data_history timestamps gpu_ids gpu_id :
  In gpu_id gpu_ids ->
  gpu_column gpu_entry.load gpu_id data_history = Raise IndexError ->
  exists e, plot_gpus data_history timestamps gpu_ids = Raise e.
Proof.
  intros Hin Hshort. induction gpu_ids as [|head ids IH]; [contradiction|].
  cbn [plot_gpus].
  destruct (gpu_column gpu_entry.load head data_history) as [load_|e1] eqn:Hload;
    [|eauto].
  destruct (gpu_column gpu_entry.temperature head data_history) as [temp_|e1];
    [|eauto].
  destruct (first_gpu_name data_history head) as [name_|e1]; [|eauto].
  destruct (plot timestamps load_); [|eauto].
  destruct (plot timestamps temp_); [|eauto].
  destruct Hin as [-> | Hin]; [congruence|].
  destruct (IH Hin) as [e ->]. eauto.
Qed.

Lemma has_gpu_data_first first rest info :
  gpu first = Some info -> existsb has_gpu_data (first :: rest) = true.
Proof. intros H. cbn. unfold has_gpu_data at 1. now rewrite H. Qed.

Lemma generate_gpu_graph_plots first rest info :
  gpu first = Some info -> gpu_info.gpus info <> [] ->
  generate_gpu_graph (first :: rest) =
  match plot_gpus (first :: rest) (map timestamp (first :: rest))
          (seq 0 (List.length (gpu_info.gpus info))) with
  | Raise e => Raise e
  | Return series => Return (GpuPlots (map timestamp (first :: rest)) series)
  end.
Proof.
  intros Hfirst Hdevices.
  unfold generate_gpu_graph. rewrite (has_gpu_data_first _ _ _ Hfirst).
  cbn [negb list_getitem nth_error]. rewrite Hfirst.
  destruct (gpu_info.gpus info); [congruence | reflexivity].
Qed.

(** The GPU figure, when the first snapshot has [n > 0] devices and no
    snapshot with GPU data has fewer.  If every snapshot has GPU data, the
    figure has one pair of curves per device of the first snapshot, each
    with one point per snapshot.  If a single snapshot has none (a tick on
    which the GPU adapter returned [None]), the curves of the first device
    are one point short of the time axis and plotting them raises
    [ValueError]: no GPU figure is made. *)
Theorem gpu_curves_skip_snapshots_without_gpu (first : Snapshot)
    (rest : list Snapshot) (info : gpu_info.t) :
  gpu first = Some info -> gpu_info.gpus info <> [] ->
  Forall (fun entry => gpu entry = None \/
                       (List.length (gpu_info.gpus info) <= device_count entry)%nat)
         rest ->
  (Forall (fun entry => gpu entry <> None) rest ->
   exists series,
     generate_gpu_graph (first :: rest) =
     Return (GpuPlots (map timestamp (first :: rest)) series) /\
     map series_id series = seq 0 (List.length (gpu_info.gpus info)) /\
     Forall (fun s => List.length (gpu_load s) = List.length (first :: rest) /\
                      List.length (gpu_temp s) = List.length (first :: rest)) series) /\
  (Exists (fun entry => gpu entry = None) rest ->
   generate_gpu_graph (first :: rest) = Raise ValueError).
Proof.
  intros Hfirst Hdevices Hrest.
  set (n := List.length (gpu_info.gpus info)) in *.
  assert (Hn : (0 < n)%nat).
  { subst n. destruct (gpu_info.gpus info); [congruence | cbn; lia]. }
  assert (Hall : Forall (fun entry => gpu entry = None \/ (n <= device_count entry)%nat)
                   (first :: rest)).
  { constructor; [|exact Hrest]. right. unfold device_count. rewrite Hfirst. lia. }
  rewrite (generate_gpu_graph_plots _ _ _ Hfirst Hdevices). fold n.
  split.
  - intros Hdata.
    destruct (plot_gpus_returns first rest info (seq 0 n) Hfirst)
      as (series & Hplot & Hids & Hlens).
    { constructor; [congruence | exact Hdata]. }
    { apply Forall_forall. intros gpu_id Hin. apply in_seq in Hin.
      split; [lia|]. eapply Forall_impl; [|exact Hall].
      intros entry [Hnone|Hcount]; [now left | right; lia]. }
    exists series. rewrite Hplot. repeat split; assumption.
  - intros Hmissing.
    assert (Hseq : seq 0 n = 0%nat :: seq 1 (n - 1)).
    { destruct (Nat.eq_dec n 0) as [|Hne]; [lia|].
      replace n with (S (n - 1)) at 1 by lia. reflexivity. }
    rewrite Hseq. cbn [plot_gpus].
    assert (Hall0 : Forall (fun entry => gpu entry = None \/
                                         (0 < device_count entry)%nat) (first :: rest)).
    { eapply Forall_impl; [|exact Hall].
      intros entry [Hnone|Hcount]; [now left | right; lia]. }
    destruct (gpu_column_returns gpu_entry.load 0 _ Hall0) as [load_ Hload].
    destruct (gpu_column_returns gpu_entry.temperature 0 _ Hall0) as [temp_ Htemp].
    destruct (first_gpu_name_returns first rest info 0 Hfirst) as [name_ Hname];
      [exact Hn|].
    rewrite Hload, Htemp, Hname.
    rewrite (plot_other_length _ load_); [reflexivity|].
    rewrite length_map, (gpu_column_length _ _ _ _ Hload).
    assert (gpu_entries (first :: rest) < List.length (first :: rest))%nat; [|lia].
    apply gpu_entries_missing. now apply Exists_cons_tl.
Qed.

Lemma gpu_curves_skip_snapshots_without_gpu_witness :
  (exists series,
     generate_gpu_graph [full_snapshot; later_full_snapshot] =
     Return (GpuPlots [0; 40000000] series) /\
     map series_id series = [0; 1]%nat /\
     Forall (fun s => List.length (gpu_load s) = 2%nat /\
                      List.length (gpu_temp s) = 2%nat) series) /\
  generate_gpu_graph
    [full_snapshot; degraded_snapshot 20000000; later_full_snapshot] =
  Raise ValueError.
Proof.
  split.
  - destruct (gpu_curves_skip_snapshots_without_gpu full_snapshot
                [later_full_snapshot]
                (gpu_info.mk [gpu_entry.mk 0 "gpu0" 50 2000 8000 (Float 25) 60;
                              gpu_entry.mk 1 "gpu1" 25 2000 0 (Int 0) 40]))
      as [Hplots _]; [reflexivity | discriminate | |].
    { constructor; [right; cbn; lia | constructor]. }
    destruct Hplots as (series & Hrun & Hids & Hlens).
    { constructor; [discriminate | constructor]. }
    exists series. split; [exact Hrun|]. split; [exact Hids | exact Hlens].
  - destruct (gpu_curves_skip_snapshots_without_gpu full_snapshot
                [degraded_snapshot 20000000; later_full_snapshot]
                (gpu_info.mk [gpu_entry.mk 0 "gpu0" 50 2000 8000 (Float 25) 60;
                              gpu_entry.mk 1 "gpu1" 25 2000 0 (Int 0) 40]))
      as [_ Hfails]; [reflexivity | discriminate | |].
    { constructor; [now left|]. constructor; [right; cbn; lia | constructor]. }
    apply Hfails. apply Exists_cons_hd. reflexivity.
Defined.

(** When every snapshot has GPU data and a later one has fewer devices than
    the first, the GPU figure fails with [IndexError]: the device count is
    taken from the first snapshot and every snapshot is indexed up to
    it. *)
Theorem gpu_figure_fails_on_fewer_devices (first : Snapshot)
    (rest : list Snapshot) (info : gpu_info.t) :
  gpu first = Some info ->
  Forall (fun entry => gpu entry <> None) rest ->
  Exists (fun entry => (device_count entry < List.length (gpu_info.gpus info))%nat)
         rest ->
  generate_gpu_graph (first :: rest) = Raise IndexError.
Proof.
  intros Hfirst Hdata Hshort.
  set (n := List.length (gpu_info.gpus info)) in *.
  apply Exists_exists in Hshort. destruct Hshort as (entry & Hin & Hcount).
  assert (Hsome : gpu entry <> None).
  { rewrite Forall_forall in Hdata. now apply Hdata. }
  assert (Hdevices : gpu_info.gpus info <> []).
  { intros Hnil. subst n. rewrite Hnil in Hcount. cbn in Hcount. lia. }
  assert (Hcolumn : gpu_column gpu_entry.load (device_count entry) (first :: rest) =
                    Raise IndexError).
  { apply gpu_column_short. apply Exists_cons_tl, Exists_exists.
    exists entry. split; [exact Hin|]. split; [exact Hsome | lia]. }
  destruct (plot_gpus_short (first :: rest) (map timestamp (first :: rest))
              (seq 0 n) (device_count entry))
    as [e He]; [apply in_seq; lia | exact Hcolumn |].
  assert (Hall : Forall (fun entry => gpu entry <> None) (first :: rest)).
  { constructor; [congruence | exact Hdata]. }
  pose proof (plot_gpus_Raise _ _ _ _ _ Hfirst Hall He) as ->.
  rewrite (generate_gpu_graph_plots _ _ _ Hfirst Hdevices). fold n.
  now rewrite He.
Qed.

Lemma gpu_figure_fails_on_fewer_devices_witness :
  generate_gpu_graph [full_snapshot; one_gpu_snapshot] = Raise IndexError.
Proof.
  apply (gpu_figure_fails_on_fewer_devices full_snapshot [one_gpu_snapshot]
           (gpu_info.mk [gpu_entry.mk 0 "gpu0" 50 2000 8000 (Float 25) 60;
                         gpu_entry.mk 1 "gpu1" 25 2000 0 (Int 0) 40]));
    [reflexivity | |].
  - constructor; [discriminate | constructor].
  - apply Exists_cons_hd. cbn. lia.
Defined.

(** The GPU figure is decided by the first snapshot: when it has no GPU
    data the figure is the "No GPU Detected" text even though later
    snapshots have GPU data, none of which is drawn; and when no snapshot
    has GPU data (an empty history included) the figure is the "GPU Not
    Available or No Data" text. *)
Theorem gpu_figure_decided_by_first_snapshot (data_history : list Snapshot) :
  (Forall (fun entry => gpu entry = None) data_history ->
   generate_gpu_graph data_history =
   Return (GpuPlaceholder "GPU Not Available or No Data")) /\
  (forall first rest,
     data_history = first :: rest -> gpu first = None ->
     Exists (fun entry => gpu entry <> None) rest ->
     generate_gpu_graph data_history = Return (GpuPlaceholder "No GPU Detected")).
Proof.
  split.
  - intros Hnone. unfold generate_gpu_graph.
    replace (existsb has_gpu_data data_history) with false; [reflexivity|].
    symmetry. induction Hnone as [|entry rest Hentry _ IH]; [reflexivity|].
    cbn. unfold has_gpu_data at 1. now rewrite Hentry.
  - intros first rest -> Hfirst Hlater. unfold generate_gpu_graph.
    replace (existsb has_gpu_data (first :: rest)) with true.
    + cbn [negb list_getitem nth_error]. now rewrite Hfirst.
    + symmetry. apply existsb_exists. apply Exists_exists in Hlater.
      destruct Hlater as (entry & Hin & Hsome). exists entry.
      split; [now right|]. unfold has_gpu_data. now destruct (gpu entry).
Qed.

Lemma gpu_figure_decided_by_first_snapshot_witness :
  generate_gpu_graph [degraded_snapshot 0; degraded_snapshot 20000000] =
  Return (GpuPlaceholder "GPU Not Available or No Data") /\
  generate_gpu_graph [degraded_snapshot 0; full_snapshot] =
  Return (GpuPlaceholder "No GPU Detected").
Proof.
  split.
  - destruct (gpu_figure_decided_by_first_snapshot
                [degraded_snapshot 0; degraded_snapshot 20000000]) as [Hnone _].
    apply Hnone. repeat constructor.
  - destruct (gpu_figure_decided_by_first_snapshot
                [degraded_snapshot 0; full_snapshot]) as [_ Hfirst].
    apply (Hfirst (degraded_snapshot 0) [full_snapshot]); [reflexivity | reflexivity |].
    apply Exists_cons_hd. discriminate.
Defined.
